(** * A shallow embedding of the tiered request dispatcher

    Sources embedded here:
    - [server/services/openrouter.service.ts]: the tier policy
      ([TIER_MODELS], [FREE_MODEL_FALLBACKS], [getModelForTier]) and the
      dispatcher ([chatCompletion], [chatCompletionFallback],
      [streamChatCompletion], [codeGeneration], [textAnalysis],
      [contentGeneration], [multimodalAnalysis]);
    - [server/routes/ai.routes.ts]: the chat and vision handlers.

    The remote gateway is an oracle: what the SDK client and [fetch]
    answer is a function of the number of remote calls already made by
    the request and of the request sent.  Every remote call and every
    operation on the HTTP response object is recorded, in order, in the
    state that the service and the handlers thread through. *)

From Stdlib Require Import String Ascii List ZArith Lia Bool DecimalString.
From Stdlib Require QArith.
Import ListNotations.
Local Open Scope string_scope.

(** ** JavaScript coercions the code relies on *)

Module Js.

(** [!!s] for a string that may be [undefined]/[null]. *)
Definition truthy_str (v : option string) : bool :=
  match v with
  | Some s => negb (s =? "")
  | None => false
  end.

(** [!!n] for a number that may be [undefined]/[null]. *)
Definition truthy_num (v : option Z) : bool :=
  match v with
  | Some n => negb (n =? 0)%Z
  | None => false
  end.

(** [v || d] on strings. *)
Definition or_str (v : option string) (d : string) : string :=
  match v with
  | Some s => if s =? "" then d else s
  | None => d
  end.

(** [v || d] on numbers. *)
Definition or_num (v : option Z) (d : Z) : Z :=
  match v with
  | Some n => if (n =? 0)%Z then d else n
  | None => d
  end.

(** [...(v && { key: v })]: the spread adds the key only for a truthy
    [v]; spreading [undefined] or [0] adds nothing. *)
Definition spread_num (v : option Z) : option Z :=
  if truthy_num v then v else None.

(** The string held by a value already checked to be truthy. *)
Definition str_value (v : option string) : string :=
  match v with
  | Some s => s
  | None => ""
  end.

(** Template-literal interpolation of an integer. *)
Definition string_of_Z (n : Z) : string :=
  NilZero.string_of_int (Z.to_int n).

(** The names every object literal inherits from [Object.prototype].
    A bracket lookup [obj[key]] that misses the literal's own keys
    walks the prototype chain and finds these. *)
Definition Object_prototype_keys : list string :=
  [ "constructor"; "__defineGetter__"; "__defineSetter__";
    "hasOwnProperty"; "__lookupGetter__"; "__lookupSetter__";
    "isPrototypeOf"; "propertyIsEnumerable"; "toString"; "valueOf";
    "__proto__"; "toLocaleString" ].

Fixpoint mem (k : string) (l : list string) : bool :=
  match l with
  | [] => false
  | x :: l' => if x =? k then true else mem k l'
  end.

Fixpoint assoc {A : Type} (k : string) (l : list (string * A)) : option A :=
  match l with
  | [] => None
  | (x, v) :: l' => if x =? k then Some v else assoc k l'
  end.

End Js.

(** ** Tier policy *)

(** What a lookup in a table of model identifiers evaluates to: one of
    the table's strings, or a member inherited from [Object.prototype]
    (a function, or the prototype object for [__proto__]). *)
Inductive ModelRef : Type :=
| ModelId (id : string)
| ProtoMember (key : string).

Definition ModelRef_truthy (m : ModelRef) : bool :=
  match m with
  | ModelId id => negb (id =? "")
  | ProtoMember _ => true
  end.

(** [table[key]] for an object literal [table] with string values. *)
Definition lookup (table : list (string * string)) (key : string)
  : option ModelRef :=
  match Js.assoc key table with
  | Some id => Some (ModelId id)
  | None =>
      if Js.mem key Js.Object_prototype_keys then Some (ProtoMember key)
      else None
  end.

(** [table[key] || d] *)
Definition lookup_or (table : list (string * string)) (key : string)
  (d : ModelRef) : ModelRef :=
  match lookup table key with
  | Some m => if ModelRef_truthy m then m else d
  | None => d
  end.

Definition TIER_MODELS : list (string * string) :=
  [ ("free", "mistralai/mistral-7b-instruct:free");
    ("premium", "openai/gpt-4o-mini");
    ("ultra-premium", "anthropic/claude-3.5-sonnet");
    ("enterprise", "anthropic/claude-3.7-sonnet") ].

Definition TIER_MODELS_free : ModelRef :=
  ModelId "mistralai/mistral-7b-instruct:free".

Definition FREE_MODEL_FALLBACKS : list ModelRef :=
  [ ModelId "mistralai/mistral-7b-instruct:free";
    ModelId "google/gemini-2.0-flash-exp:free";
    ModelId "nousresearch/hermes-3-llama-3.1-405b:free";
    ModelId "microsoft/phi-3-mini-128k-instruct:free" ].

Definition getModelForTier (tier : string) : ModelRef :=
  lookup_or TIER_MODELS tier TIER_MODELS_free.

(** The four tiers of the [AIRequest] type. *)
Definition recognized_tier (tier : string) : bool :=
  Js.mem tier ["free"; "premium"; "ultra-premium"; "enterprise"].

(** ** Data model *)

(** A typed part of a multimodal message. *)
Inductive ContentPart : Type :=
| TextPart (text : string)
| ImageUrlPart (url : string).

(** [content: string | any[]] *)
Inductive MessageContent : Type :=
| Text (s : string)
| Parts (ps : list ContentPart).

Record Message : Type := mkMessage
  { msg_role : string;
    msg_content : MessageContent }.

Record AIRequest : Type := mkAIRequest
  { messages : list Message;
    tier : string;
    stream : option bool;
    maxTokens : option Z }.

Record AIResponse : Type := mkAIResponse
  { content : string;
    model : ModelRef;
    tokensUsed : Z;
    promptTokens : Z;
    completionTokens : Z }.

(** A thrown [Error]; only its [message] is ever read. *)
Record Error : Type := mkError { message : string }.

(** [process.env] *)
Record Env : Type := mkEnv
  { OPENROUTER_API_KEY : option string;
    FRONTEND_URL : option string }.

(** *** The primary transport: the SDK client *)

Record OpenRouterClient : Type := mkClient
  { client_apiKey : string;
    client_timeoutMs : Z }.

(** The argument of [chat.send]. *)
Record ChatSendParams : Type := mkChatSendParams
  { send_model : ModelRef;
    send_messages : list Message;
    send_stream : bool;
    send_maxTokens : option Z }.

Record SdkMessage : Type := mkSdkMessage { sdk_content : option string }.
Record SdkChoice : Type := mkSdkChoice { sdk_message : SdkMessage }.
Record SdkUsage : Type := mkSdkUsage
  { sdk_totalTokens : option Z;
    sdk_promptTokens : option Z;
    sdk_completionTokens : option Z }.
Record SdkResponse : Type := mkSdkResponse
  { sdk_choices : list SdkChoice;
    sdk_model : option string;
    sdk_usage : option SdkUsage }.

Inductive SdkOutcome : Type :=
| SdkRejects (e : Error)
| SdkResolves (response : SdkResponse).

(** One element of the stream [chat.send] resolves to with [stream: true]. *)
Record Delta : Type := mkDelta { delta_content : option string }.
Record StreamChoice : Type := mkStreamChoice { delta : option Delta }.
Record StreamChunk : Type := mkStreamChunk
  { chunk_choices : option (list StreamChoice) }.

(** How the iteration over a stream finishes: the iterator reports
    completion, or its [next()] rejects. *)
Inductive StreamEnding : Type :=
| Completes
| Faults (e : Error).

Record ChunkStream : Type := mkChunkStream
  { chunks : list StreamChunk;
    ending : StreamEnding }.

Inductive SdkStreamOutcome : Type :=
| StreamRejects (e : Error)
| StreamResolves (s : ChunkStream).

(** *** The secondary transport: a direct [fetch] *)

Record RequestBody : Type := mkRequestBody
  { body_model : ModelRef;
    body_messages : list Message;
    body_max_tokens : option Z }.

Record FetchInit : Type := mkFetchInit
  { header_Authorization : string;
    header_HTTP_Referer : string;
    fetch_body : RequestBody }.

(** The gateway's chat-completion JSON.  The body is untyped in the
    source ([JSON.parse] returns [any]), so every field the code reads is
    optional here, the [message] of a choice included: the code reads
    [choice.message.content] without a guard. *)
Record GwError : Type := mkGwError { gw_error_message : option string }.
Record GwMessage : Type := mkGwMessage { gw_content : option string }.
Record GwChoice : Type := mkGwChoice { gw_message : option GwMessage }.
Record GwUsage : Type := mkGwUsage
  { gw_total_tokens : option Z;
    gw_prompt_tokens : option Z;
    gw_completion_tokens : option Z }.
Record GwData : Type := mkGwData
  { gw_error : option GwError;
    gw_choices : option (list GwChoice);
    gw_model : option string;
    gw_usage : option GwUsage }.

(** What [JSON.parse(responseText)] does on the text of a response. *)
Inductive JsonParse : Type :=
| ParseThrows (e : Error)
| Parsed (data : GwData).

Record HttpResponse : Type := mkHttpResponse
  { status : Z;
    responseText : string;
    json : JsonParse }.

Definition ok (r : HttpResponse) : bool :=
  ((200 <=? status r) && (status r <=? 299))%Z.

Inductive FetchOutcome : Type :=
| FetchRejects (e : Error)
| FetchResolves (response : HttpResponse).

(** *** The gateway oracle and the recorded effects *)

Record Gateway : Type := mkGateway
  { chat_send : nat -> ChatSendParams -> SdkOutcome;
    chat_send_stream : nat -> ChatSendParams -> SdkStreamOutcome;
    fetch : nat -> FetchInit -> FetchOutcome }.

Inductive RemoteCall : Type :=
| SdkSend (params : ChatSendParams)
| Fetch (init : FetchInit).

(** The body of a JSON reply.  The [responseTime] echo (a difference of
    two [Date.now()] readings) is wall-clock time and is left out. *)
Inductive JsonPayload : Type :=
| ErrorJson (error : string) (detail : option string)
| ChatJson (response : AIResponse) (tier : string)
| VisionJson (response : AIResponse) (tier : string) (mediaType : string).

(** Operations on the Express response object. *)
Inductive ResOp : Type :=
| SetHeader (name value : string)
| Status (code : Z)
| Json (payload : JsonPayload)
| Write (data : string)
| EndResponse.

Record State : Type := mkState
  { client : option OpenRouterClient;
    calls : list RemoteCall;
    res : list ResOp }.

(** ** A monad for state and exceptions *)

Inductive Completion (A : Type) : Type :=
| Normal (a : A)
| Throw (e : Error).
Arguments Normal {A} a.
Arguments Throw {A} e.

Definition M (A : Type) : Type := State -> Completion A * State.

Definition ret {A : Type} (a : A) : M A := fun st => (Normal a, st).

Definition bind {A B : Type} (c : M A) (k : A -> M B) : M B :=
  fun st =>
    match c st with
    | (Normal a, st') => k a st'
    | (Throw e, st') => (Throw e, st')
    end.

Definition throw {A : Type} (e : Error) : M A := fun st => (Throw e, st).

(** [try { c } catch (error) { handler error }] *)
Definition try_catch {A : Type} (c : M A) (handler : Error -> M A) : M A :=
  fun st =>
    match c st with
    | (Normal a, st') => (Normal a, st')
    | (Throw e, st') => handler e st'
    end.

Declare Scope js_scope.
Delimit Scope js_scope with js.
Notation "x <- c ;; k" := (bind c (fun x => k))
  (at level 61, c at next level, right associativity) : js_scope.
Notation "c ;;; k" := (bind c (fun _ => k))
  (at level 61, right associativity) : js_scope.
Local Open Scope js_scope.

(** A call on the response object that cannot throw: [res.status],
    [res.write], [res.end], and [res.json] where nothing has been sent
    before it. *)
Definition res_op (o : ResOp) : M unit :=
  fun st => (Normal tt, mkState (client st) (calls st) (res st ++ [o])).

(** Whether the response has started: [res.write], [res.json] and
    [res.end] send the headers. *)
Definition headersSent (ops : list ResOp) : bool :=
  existsb (fun o => match o with
                    | Write _ | Json _ | EndResponse => true
                    | SetHeader _ _ | Status _ => false
                    end) ops.

(** Node's [ERR_HTTP_HEADERS_SENT]. *)
Definition ERR_HTTP_HEADERS_SENT : Error :=
  mkError "Cannot set headers after they are sent to the client".

(** [res.setHeader(...)] and [res.json(...)], which sets the
    [Content-Type] header: the call is recorded, and it throws when the
    headers are sent already.  The response object of a request is
    fresh, so only the calls from index [base] on, the length of the log
    when the handler was entered, are calls on it. *)
Definition res_set (base : nat) (o : ResOp) : M unit :=
  fun st =>
    let st' := mkState (client st) (calls st) (res st ++ [o]) in
    if headersSent (skipn base (res st))
    then (Throw ERR_HTTP_HEADERS_SENT, st')
    else (Normal tt, st').

(** ** The service: [OpenRouterService] *)

Section Service.

Variable env : Env.
Variable gw : Gateway.

(** [private getClient()]: the client is built on first use and kept. *)
Definition getClient : M OpenRouterClient :=
  fun st =>
    match client st with
    | Some c => (Normal c, st)
    | None =>
        let apiKey := OPENROUTER_API_KEY env in
        if negb (Js.truthy_str apiKey) then
          (Throw (mkError
             "OPENROUTER_API_KEY is required. Please set it in your .env file."),
           st)
        else
          let c := mkClient (Js.or_str apiKey "") 60000 in
          (Normal c, mkState (Some c) (calls st) (res st))
    end.

(** [await client.chat.send(params)] without [stream]. *)
Definition client_chat_send (params : ChatSendParams) : M SdkResponse :=
  fun st =>
    let n := length (calls st) in
    let st' := mkState (client st) (calls st ++ [SdkSend params]) (res st) in
    match chat_send gw n params with
    | SdkRejects e => (Throw e, st')
    | SdkResolves r => (Normal r, st')
    end.

(** [await client.chat.send(params)] with [stream: true]. *)
Definition client_chat_send_stream (params : ChatSendParams)
  : M ChunkStream :=
  fun st =>
    let n := length (calls st) in
    let st' := mkState (client st) (calls st ++ [SdkSend params]) (res st) in
    match chat_send_stream gw n params with
    | StreamRejects e => (Throw e, st')
    | StreamResolves s => (Normal s, st')
    end.

(** [await fetch('https://openrouter.ai/api/v1/chat/completions', init)] *)
Definition js_fetch (init : FetchInit) : M HttpResponse :=
  fun st =>
    let n := length (calls st) in
    let st' := mkState (client st) (calls st ++ [Fetch init]) (res st) in
    match fetch gw n init with
    | FetchRejects e => (Throw e, st')
    | FetchResolves r => (Normal r, st')
    end.

(** [JSON.parse(responseText)] *)
Definition JSON_parse (r : HttpResponse) : M GwData :=
  match json r with
  | ParseThrows e => throw e
  | Parsed data => ret data
  end.

(** Reading [.message] of [undefined] (V8's wording). *)
Definition TypeError_message_of_undefined : Error :=
  mkError "Cannot read properties of undefined (reading 'message')".

(** Reading [.content] of [undefined], the [message] of a choice that has
    none (V8's wording). *)
Definition TypeError_content_of_undefined : Error :=
  mkError "Cannot read properties of undefined (reading 'content')".

(** [usage?.field] *)
Definition opt_field {U : Type} (usage : option U) (field : U -> option Z)
  : option Z :=
  match usage with
  | Some u => field u
  | None => None
  end.

(** [reported || requested] for the model identifier. *)
Definition model_or (reported : option string) (requested : ModelRef)
  : ModelRef :=
  match reported with
  | Some m => if m =? "" then requested else ModelId m
  | None => requested
  end.

(** The object literal returned after a reply of the SDK client. *)
Definition sdk_result (response : SdkResponse) (choice : SdkChoice)
  (model : ModelRef) : AIResponse :=
  let usage := sdk_usage response in
  mkAIResponse
    (Js.or_str (sdk_content (sdk_message choice)) "")
    (model_or (sdk_model response) model)
    (Js.or_num (opt_field usage sdk_totalTokens) 0)
    (Js.or_num (opt_field usage sdk_promptTokens) 0)
    (Js.or_num (opt_field usage sdk_completionTokens) 0).

(** The object literal returned after a reply to the direct call. *)
Definition gw_result (data : GwData) (choice_message : GwMessage)
  (currentModel : ModelRef) : AIResponse :=
  let usage := gw_usage data in
  mkAIResponse
    (Js.or_str (gw_content choice_message) "")
    (model_or (gw_model data) currentModel)
    (Js.or_num (opt_field usage gw_total_tokens) 0)
    (Js.or_num (opt_field usage gw_prompt_tokens) 0)
    (Js.or_num (opt_field usage gw_completion_tokens) 0).

(** The [try] block of [chatCompletion]. *)
Definition chatCompletion_try (request : AIRequest) (model : ModelRef)
  : M AIResponse :=
  c <- getClient ;;
  response <- client_chat_send
    (mkChatSendParams model (messages request) false
       (Js.spread_num (maxTokens request))) ;;
  match sdk_choices response with
  | [] => throw TypeError_message_of_undefined
  | choice :: _ =>
      ret (sdk_result response choice model)
  end.

(** What one turn of the candidate loop leaves to do. *)
Inductive LoopStep : Type :=
| Return (response : AIResponse)
| Continue.

Definition requestBody (request : AIRequest) (currentModel : ModelRef)
  : RequestBody :=
  mkRequestBody currentModel (messages request)
    (Js.spread_num (maxTokens request)).

Definition fetchInit (request : AIRequest) (currentModel : ModelRef)
  : FetchInit :=
  mkFetchInit
    ("Bearer " ++ match OPENROUTER_API_KEY env with
                  | Some k => k
                  | None => "undefined"
                  end)
    (Js.or_str (FRONTEND_URL env) "http://localhost:5173")
    (requestBody request currentModel).

(** What the [try] block of one turn does with the reply to its
    [fetch], for the candidate at index [i] of [n]. *)
Definition handleResponse (i n : nat) (currentModel : ModelRef)
  (response : HttpResponse) : M LoopStep :=
  if negb (ok response) then
    errorData <- JSON_parse response ;;
    let is429 := (status response =? 429)%Z in
    if is429 && (i <? n - 1)%nat then ret Continue
    else
      throw (mkError
        ("OpenRouter API error (" ++ Js.string_of_Z (status response)
         ++ "): "
         ++ Js.or_str (match gw_error errorData with
                       | Some e => gw_error_message e
                       | None => None
                       end) (responseText response)))
  else
    data <- JSON_parse response ;;
    match gw_choices data with
    | None | Some [] => throw (mkError "Invalid response from OpenRouter")
    | Some (choice :: _) =>
        match gw_message choice with
        | None => throw TypeError_content_of_undefined
        | Some choice_message =>
            ret (Return (gw_result data choice_message currentModel))
        end
    end.

(** The [try] block of one turn of the [for] loop. *)
Definition candidate_try (request : AIRequest) (i n : nat)
  (currentModel : ModelRef) : M LoopStep :=
  response <- js_fetch (fetchInit request currentModel) ;;
  handleResponse i n currentModel response.

(** One turn of the [for] loop: the [try] block and its [catch]. *)
Definition tryCandidate (request : AIRequest) (i n : nat)
  (currentModel : ModelRef) : M LoopStep :=
  try_catch (candidate_try request i n currentModel)
    (fun error =>
       if (i =? n - 1)%nat then
         throw (mkError ("AI request failed: " ++ message error))
       else ret Continue).

(** [for (let i = 0; i < modelsToTry.length; i++)], with [rest] the
    candidates from index [i] on and [n] the length of [modelsToTry];
    the statement after the loop is the [[]] case. *)
Fixpoint candidateLoop (request : AIRequest) (n i : nat)
  (rest : list ModelRef) : M AIResponse :=
  match rest with
  | [] => throw (mkError "AI request failed: All models exhausted")
  | currentModel :: rest' =>
      step <- tryCandidate request i n currentModel ;;
      match step with
      | Return response => ret response
      | Continue => candidateLoop request n (S i) rest'
      end
  end.

Definition modelsToTry (request : AIRequest) : list ModelRef :=
  let model := getModelForTier (tier request) in
  let isFree := tier request =? "free" in
  if isFree then FREE_MODEL_FALLBACKS else [model].

Definition chatCompletionFallback (request : AIRequest) : M AIResponse :=
  candidateLoop request (length (modelsToTry request)) 0
    (modelsToTry request).

Definition chatCompletion (request : AIRequest) : M AIResponse :=
  let model := getModelForTier (tier request) in
  try_catch (chatCompletion_try request model)
    (fun error => chatCompletionFallback request).

Definition streamChatCompletion (request : AIRequest) : M ChunkStream :=
  let model := getModelForTier (tier request) in
  try_catch
    (c <- getClient ;;
     client_chat_send_stream
       (mkChatSendParams model (messages request) true
          (Js.spread_num (maxTokens request))))
    (fun error =>
       throw (mkError ("AI streaming failed: " ++ message error))).

Definition codeGeneration_systemMessage : Message :=
  mkMessage "system"
    (Text "You are an expert programmer. Generate clean, efficient, and well-documented code based on the user request. Include comments and follow best practices.").

Definition codeGeneration (request : AIRequest) : M AIResponse :=
  let messagesWithSystem := codeGeneration_systemMessage :: messages request in
  chatCompletion
    (mkAIRequest messagesWithSystem (tier request) (stream request)
       (Some (Js.or_num (maxTokens request) 4000))).

Definition textAnalysis_systemMessage : Message :=
  mkMessage "system"
    (Text "You are an expert text analyst. Analyze the provided text and provide insights, summaries, or answer questions about it. Be concise and accurate.").

Definition textAnalysis (request : AIRequest) : M AIResponse :=
  let messagesWithSystem := textAnalysis_systemMessage :: messages request in
  chatCompletion
    (mkAIRequest messagesWithSystem (tier request) (stream request)
       (Some (Js.or_num (maxTokens request) 2000))).

Definition contentGeneration_systemMessage : Message :=
  mkMessage "system"
    (Text "You are a creative content writer. Generate high-quality, engaging content based on user requirements. Be creative, original, and maintain the requested tone and style.").

Definition contentGeneration (request : AIRequest) : M AIResponse :=
  let messagesWithSystem :=
    contentGeneration_systemMessage :: messages request in
  chatCompletion
    (mkAIRequest messagesWithSystem (tier request) (stream request)
       (Some (Js.or_num (maxTokens request) 3000))).

Definition visionModels : list (string * string) :=
  [ ("free", "google/gemini-2.0-flash-exp:free");
    ("premium", "openai/gpt-4o-mini");
    ("ultra-premium", "anthropic/claude-3.5-sonnet");
    ("enterprise", "anthropic/claude-3.7-sonnet") ].

(** The [try] block of [multimodalAnalysis]. *)
Definition multimodalAnalysis_try (request : AIRequest) (model : ModelRef)
  : M AIResponse :=
  c <- getClient ;;
  response <- client_chat_send
    (mkChatSendParams (lookup_or visionModels (tier request) model)
       (messages request) false
       (Some (Js.or_num (maxTokens request) 2000))) ;;
  match sdk_choices response with
  | [] => throw TypeError_message_of_undefined
  | choice :: _ =>
      ret (sdk_result response choice model)
  end.

Definition multimodalAnalysis (request : AIRequest) : M AIResponse :=
  let model := getModelForTier (tier request) in
  try_catch (multimodalAnalysis_try request model)
    (fun error =>
       throw (mkError ("Multimodal analysis failed: " ++ message error))).

End Service.

(** ** [JSON.stringify] on the one shape the routes serialize by hand *)

Module JSON.

Definition dquote : string := String (ascii_of_nat 34) "".
Definition newline : string := String (ascii_of_nat 10) "".

Definition hex_digit (n : nat) : string :=
  String (nth n (list_ascii_of_string "0123456789abcdef") "0"%char) "".

Definition escape_char (c : ascii) : string :=
  let n := nat_of_ascii c in
  if (n =? 34)%nat then "\" ++ dquote
  else if (n =? 92)%nat then "\\"
  else if (n =? 8)%nat then "\b"
  else if (n =? 12)%nat then "\f"
  else if (n =? 10)%nat then "\n"
  else if (n =? 13)%nat then "\r"
  else if (n =? 9)%nat then "\t"
  else if (n <? 32)%nat then
    "\u00" ++ hex_digit (n / 16) ++ hex_digit (n mod 16)
  else String c "".

Fixpoint escape (s : string) : string :=
  match s with
  | EmptyString => ""
  | String c s' => escape_char c ++ escape s'
  end.

Definition stringify_string (s : string) : string :=
  dquote ++ escape s ++ dquote.

(** [JSON.stringify({ content: delta })] *)
Definition stringify_content (delta : string) : string :=
  "{" ++ dquote ++ "content" ++ dquote ++ ":" ++ stringify_string delta
  ++ "}".

End JSON.

(** ** The routes: [ai.routes.ts] *)

Section Routes.

Variable env : Env.
Variable gw : Gateway.

(** [req.body] of the chat endpoint; [chat_messages] is [None] when
    the field is missing or is not an array. *)
Record ChatBody : Type := mkChatBody
  { chat_messages : option (list Message);
    chat_tier : option string;
    chat_stream : option bool }.

(** [req.body] of the vision endpoint. *)
Record VisionBody : Type := mkVisionBody
  { vision_prompt : option string;
    vision_imageUrl : option string;
    vision_imageBase64 : option string;
    vision_tier : option string }.

(** [for await (const chunk of stream) body(chunk)] *)
Fixpoint for_await (cs : list StreamChunk) (e : StreamEnding)
  (body : StreamChunk -> M unit) : M unit :=
  match cs with
  | [] =>
      match e with
      | Completes => ret tt
      | Faults err => throw err
      end
  | chunk :: cs' => body chunk ;;; for_await cs' e body
  end.

(** [chunk.choices?.[0]?.delta?.content] *)
Definition chunk_delta (chunk : StreamChunk) : option string :=
  match chunk_choices chunk with
  | Some (c :: _) =>
      match delta c with
      | Some d => delta_content d
      | None => None
      end
  | _ => None
  end.

Definition delta_frame (d : string) : string :=
  "data: " ++ JSON.stringify_content d ++ JSON.newline ++ JSON.newline.

Definition done_frame : string :=
  "data: [DONE]" ++ JSON.newline ++ JSON.newline.

Definition relay_chunk (chunk : StreamChunk) : M unit :=
  let delta := chunk_delta chunk in
  if Js.truthy_str delta then res_op (Write (delta_frame (Js.str_value delta)))
  else ret tt.

(** [router.post('/api/ai/chat', ...)].  In the [catch] block
    [res.status(500).json(...)] runs whatever was sent before: after a
    [res.write] the headers are sent and [res.json] throws, so the
    handler itself fails. *)
Definition chat_handler (body : ChatBody) : M unit :=
  fun entry =>
    let base := length (res entry) in
    try_catch
      (let messages := chat_messages body in
       let tier :=
         match chat_tier body with Some t => t | None => "free" end in
       let stream :=
         match chat_stream body with Some b => b | None => false end in
       match messages with
       | None =>
           res_op (Status 400) ;;;
           res_set base (Json (ErrorJson "Invalid messages format" None))
       | Some messages =>
           if stream then
             res_set base (SetHeader "Content-Type" "text/event-stream") ;;;
             res_set base (SetHeader "Cache-Control" "no-cache") ;;;
             res_set base (SetHeader "Connection" "keep-alive") ;;;
             streamResponse <- streamChatCompletion env gw
               (mkAIRequest messages tier (Some true) None) ;;
             for_await (chunks streamResponse) (ending streamResponse)
               relay_chunk ;;;
             res_op (Write done_frame) ;;;
             res_op EndResponse
           else
             response <- chatCompletion env gw
               (mkAIRequest messages tier None None) ;;
             res_set base (Json (ChatJson response tier))
       end)
      (fun error =>
         res_op (Status 500) ;;;
         res_set base (Json (ErrorJson "Chat completion failed"
                               (Some (message error)))))
      entry.

(** The message list the vision endpoint assembles. *)
Definition vision_messages (body : VisionBody) : list Message :=
  let imageUrl := vision_imageUrl body in
  let imageBase64 := vision_imageBase64 body in
  let imageContent :=
    if Js.truthy_str imageUrl then ImageUrlPart (Js.str_value imageUrl)
    else ImageUrlPart (Js.str_value imageBase64) in
  [ mkMessage "user"
      (Parts [TextPart (Js.str_value (vision_prompt body)); imageContent]) ].

(** [router.post('/api/ai/vision', ...)] *)
Definition vision_handler (body : VisionBody) : M unit :=
  try_catch
    (let prompt := vision_prompt body in
     let imageUrl := vision_imageUrl body in
     let imageBase64 := vision_imageBase64 body in
     let tier := vision_tier body in
     if negb (Js.truthy_str prompt) then
       res_op (Status 400) ;;;
       res_op (Json (ErrorJson "Prompt is required" None))
     else if negb (Js.truthy_str imageUrl)
             && negb (Js.truthy_str imageBase64) then
       res_op (Status 400) ;;;
       res_op (Json (ErrorJson "Image URL or base64 data is required" None))
     else if negb (Js.truthy_str tier) then
       res_op (Status 400) ;;;
       res_op (Json (ErrorJson "Tier is required" None))
     else
       let messages := vision_messages body in
       response <- multimodalAnalysis env gw
         (mkAIRequest messages (Js.str_value tier) None None) ;;
       res_op (Json (VisionJson response (Js.str_value tier) "image")))
    (fun error =>
       res_op (Status 500) ;;;
       res_op (Json (ErrorJson "Vision analysis failed"
                       (Some (message error))))).

End Routes.

(** ** Observations on a run *)

(** The five capabilities and the service method each route calls. *)
Inductive Capability : Type := Chat | Code | Analyze | Generate | Vision.

Definition dispatch (env : Env) (gw : Gateway) (cap : Capability)
  : AIRequest -> M AIResponse :=
  match cap with
  | Chat => chatCompletion env gw
  | Code => codeGeneration env gw
  | Analyze => textAnalysis env gw
  | Generate => contentGeneration env gw
  | Vision => multimodalAnalysis env gw
  end.

(** The request a service method hands on to the transport. *)
Definition prepared (cap : Capability) (request : AIRequest) : AIRequest :=
  match cap with
  | Chat | Vision => request
  | Code =>
      mkAIRequest (codeGeneration_systemMessage :: messages request)
        (tier request) (stream request)
        (Some (Js.or_num (maxTokens request) 4000))
  | Analyze =>
      mkAIRequest (textAnalysis_systemMessage :: messages request)
        (tier request) (stream request)
        (Some (Js.or_num (maxTokens request) 2000))
  | Generate =>
      mkAIRequest (contentGeneration_systemMessage :: messages request)
        (tier request) (stream request)
        (Some (Js.or_num (maxTokens request) 3000))
  end.

(** The primary transport path of a capability: the [try] block around
    the SDK call. *)
Definition primary (env : Env) (gw : Gateway) (cap : Capability)
  (request : AIRequest) : M AIResponse :=
  match cap with
  | Vision =>
      multimodalAnalysis_try env gw request (getModelForTier (tier request))
  | _ =>
      chatCompletion_try env gw (prepared cap request)
        (getModelForTier (tier request))
  end.

(** A reply with a success status whose body parses and whose first
    completion choice carries a message. *)
Definition well_formed (o : FetchOutcome) : bool :=
  match o with
  | FetchResolves r =>
      ok r &&
      match json r with
      | Parsed data =>
          match gw_choices data with
          | Some (choice :: _) =>
              match gw_message choice with
              | Some _ => true
              | None => false
              end
          | _ => false
          end
      | ParseThrows _ => false
      end
  | FetchRejects _ => false
  end.

(** The error a reply that is not well-formed stands for when it
    answers the last candidate: the rejection of the call, the error of
    [JSON.parse], the gateway's error status, a body without choices, or
    a first choice without a message. *)
Definition underlying_error (o : FetchOutcome) : option Error :=
  match o with
  | FetchRejects e => Some e
  | FetchResolves r =>
      match json r with
      | ParseThrows e => Some e
      | Parsed data =>
          if ok r then
            match gw_choices data with
            | Some (choice :: _) =>
                match gw_message choice with
                | Some _ => None
                | None =>
                    Some (mkError
                      "Cannot read properties of undefined (reading 'content')")
                end
            | _ => Some (mkError "Invalid response from OpenRouter")
            end
          else
            Some (mkError
              ("OpenRouter API error (" ++ Js.string_of_Z (status r) ++ "): "
               ++ match gw_error data with
                  | Some (mkGwError (Some m)) =>
                      if m =? "" then responseText r else m
                  | _ => responseText r
                  end))
      end
  end.


(** The direct calls for a list of candidates, in order. *)
Definition fetches (env : Env) (request : AIRequest) (ms : list ModelRef)
  : list RemoteCall :=
  map (fun m => Fetch (fetchInit env request m)) ms.

Definition after_calls (st : State) (cs : list RemoteCall) : State :=
  mkState (client st) (calls st ++ cs) (res st).

Definition after_fetches (env : Env) (request : AIRequest) (st : State)
  (ms : list ModelRef) : State :=
  after_calls st (fetches env request ms).

(** The gateway's reply to the direct call for the candidate at index
    [j] of [ms], when the calls for the candidates before it were made
    from [st] on. *)
Definition reply_in (env : Env) (gw : Gateway) (request : AIRequest)
  (st : State) (ms : list ModelRef) (j : nat) : FetchOutcome :=
  fetch gw (length (calls st) + j)
    (fetchInit env request (nth j ms TIER_MODELS_free)).

Definition reply (env : Env) (gw : Gateway) (request : AIRequest)
  (st : State) (j : nat) : FetchOutcome :=
  reply_in env gw request st (modelsToTry request) j.

Definition call_model (c : RemoteCall) : ModelRef :=
  match c with
  | SdkSend p => send_model p
  | Fetch init => body_model (fetch_body init)
  end.

(** The output-token bound a remote call carries. *)
Definition call_max_tokens (c : RemoteCall) : option Z :=
  match c with
  | SdkSend p => send_maxTokens p
  | Fetch init => body_max_tokens (fetch_body init)
  end.

Definition is_fetch (c : RemoteCall) : bool :=
  match c with
  | Fetch _ => true
  | SdkSend _ => false
  end.

(** The remote calls made between two states of one run. *)
Definition new_calls (before after : State) : list RemoteCall :=
  skipn (length (calls before)) (calls after).

Definition new_res (before after : State) : list ResOp :=
  skipn (length (res before)) (res after).

(** The frames written with [res.write]. *)
Fixpoint writes (ops : list ResOp) : list string :=
  match ops with
  | [] => []
  | Write data :: ops' => data :: writes ops'
  | _ :: ops' => writes ops'
  end.

(** The content-delta frames of a list of chunks. *)
Fixpoint delta_frames (cs : list StreamChunk) : list string :=
  match cs with
  | [] => []
  | chunk :: cs' =>
      if Js.truthy_str (chunk_delta chunk)
      then delta_frame (Js.str_value (chunk_delta chunk)) :: delta_frames cs'
      else delta_frames cs'
  end.

(** The argument of the SDK call of [chatCompletion]. *)
Definition sendParams (request : AIRequest) : ChatSendParams :=
  mkChatSendParams (getModelForTier (tier request)) (messages request) false
    (Js.spread_num (maxTokens request)).

(** The argument of the SDK call of [multimodalAnalysis]. *)
Definition visionParams (request : AIRequest) : ChatSendParams :=
  mkChatSendParams
    (lookup_or visionModels (tier request) (getModelForTier (tier request)))
    (messages request) false (Some (Js.or_num (maxTokens request) 2000)).

(** A failure of the primary path is answered by the secondary path,
    run from the state the failure left. *)
Definition falls_through (env : Env) (gw : Gateway) (cap : Capability)
  (request : AIRequest) (st : State) : Prop :=
  forall e st',
    primary env gw cap request st = (Throw e, st') ->
    dispatch env gw cap request st
    = chatCompletionFallback env gw (prepared cap request) st'.

(** The request without its output-token bound. *)
Definition without_bound (request : AIRequest) : AIRequest :=
  mkAIRequest (messages request) (tier request) (stream request) None.

(** The output-token default of each capability (chat has none). *)
Definition capability_default (cap : Capability) : option Z :=
  match cap with
  | Chat => None
  | Code => Some 4000%Z
  | Analyze => Some 2000%Z
  | Generate => Some 3000%Z
  | Vision => Some 2000%Z
  end.

(** A value that defaults only when it is absent: what the
    normalization contract promises for each field. *)
Definition when_absent {A : Type} (v : option A) (d : A) : A :=
  match v with
  | Some a => a
  | None => d
  end.

(** [getClient()] will not throw: a client is cached or the key is set. *)
Definition client_available (env : Env) (st : State) : bool :=
  match client st with
  | Some _ => true
  | None => Js.truthy_str (OPENROUTER_API_KEY env)
  end.

(** The argument of the SDK call of [streamChatCompletion]. *)
Definition streamParams (request : AIRequest) : ChatSendParams :=
  mkChatSendParams (getModelForTier (tier request)) (messages request) true
    (Js.spread_num (maxTokens request)).

Definition after_res (st : State) (ops : list ResOp) : State :=
  mkState (client st) (calls st) (res st ++ ops).

(** The headers the chat route sets before it streams. *)
Definition sse_headers : list ResOp :=
  [ SetHeader "Content-Type" "text/event-stream";
    SetHeader "Cache-Control" "no-cache";
    SetHeader "Connection" "keep-alive" ].

(** [tier = 'free'] in the destructuring of the chat route. *)
Definition chat_tier_or_free (body : ChatBody) : string :=
  match chat_tier body with
  | Some t => t
  | None => "free"
  end.

(** ** Sample environments, gateways and requests *)

Module Sample.

Definition env : Env := mkEnv (Some "sk-or-test") None.

Definition st0 : State := mkState None [] [].

Definition user (s : string) : Message := mkMessage "user" (Text s).

Definition request (t : string) (bound : option Z) : AIRequest :=
  mkAIRequest [user "hello"] t None bound.

Definition http (code : Z) (data : GwData) : FetchOutcome :=
  FetchResolves (mkHttpResponse code "{}" (Parsed data)).

Definition no_data : GwData := mkGwData None None None None.

Definition completion (reported : option string) (text : option string)
  : GwData :=
  mkGwData None (Some [mkGwChoice (Some (mkGwMessage text))]) reported None.

(** The SDK client always rejects; the direct call is rate-limited for
    the first candidate and answered for every later one. *)
Definition gw_sdk_down : Gateway :=
  mkGateway
    (fun _ _ => SdkRejects (mkError "socket hang up"))
    (fun _ _ => StreamRejects (mkError "socket hang up"))
    (fun n _ =>
       if (n =? 1)%nat then http 429 no_data
       else http 200 (completion (Some "") (Some "hi"))).

(** Nothing answers: the SDK client rejects and every direct call
    gets a 503. *)
Definition gw_all_down : Gateway :=
  mkGateway
    (fun _ _ => SdkRejects (mkError "socket hang up"))
    (fun _ _ => StreamRejects (mkError "socket hang up"))
    (fun _ _ => http 503 no_data).

Definition chunk (text : option string) : StreamChunk :=
  mkStreamChunk (Some [mkStreamChoice (Some (mkDelta text))]).

(** The SDK client answers; a stream carries the given chunks. *)
Definition gw_up (s : ChunkStream) : Gateway :=
  mkGateway
    (fun _ _ =>
       SdkResolves
         (mkSdkResponse [mkSdkChoice (mkSdkMessage None)] None None))
    (fun _ _ => StreamResolves s)
    (fun _ _ => http 200 (completion None None)).

Definition vision_body (url b64 : option string) : VisionBody :=
  mkVisionBody (Some "What is in this picture?") url b64
    (Some "ultra-premium").

(** The state the primary path leaves after one rejected SDK call. *)
Definition st1 : State :=
  mkState (Some (mkClient "sk-or-test" 60000))
    [SdkSend (sendParams (request "free" None))] [].

Definition stream_body : ChatBody :=
  mkChatBody (Some [user "hello"]) None (Some true).

End Sample.

(** * The rest of the routes, the service edge cases and the client *)

(** ** String methods the code calls *)

Module JsString.

(** [hay.includes(needle)] *)
Fixpoint includes (needle hay : string) : bool :=
  if String.prefix needle hay then true
  else
    match hay with
    | EmptyString => false
    | String _ hay' => includes needle hay'
    end.

(** [s.startsWith(p)] *)
Definition startsWith (p s : string) : bool := String.prefix p s.

(** No character of [s] is a control character (a line break among
    them). *)
Fixpoint printable (s : string) : bool :=
  match s with
  | EmptyString => true
  | String c s' => (32 <=? nat_of_ascii c)%nat && printable s'
  end.

End JsString.

(** The messages a remote call carries. *)
Definition call_messages (c : RemoteCall) : list Message :=
  match c with
  | SdkSend p => send_messages p
  | Fetch init => body_messages (fetch_body init)
  end.

(** The credential header of a direct call. *)
Definition call_authorization (c : RemoteCall) : option string :=
  match c with
  | SdkSend _ => None
  | Fetch init => Some (header_Authorization init)
  end.

(** What the body of a remote call asks for: the model, the messages and
    the output-token bound. *)
Definition call_body (c : RemoteCall)
  : ModelRef * list Message * option Z :=
  (call_model c, call_messages c, call_max_tokens c).

(** The message every failure of a capability's dispatch starts with. *)
Definition failure_prefix (cap : Capability) : string :=
  match cap with
  | Vision => "Multimodal analysis failed: "
  | _ => "AI request failed: "
  end.

(** ** The routes that answer once: code, analyze and generate

    These handlers touch the response object exactly once, with
    [res.status(code).json(payload)] or [res.json(payload)] (status
    200); the reply is the value the handler model returns.  As for the
    other routes, the [responseTime] echo is left out. *)

Inductive RoutePayload : Type :=
| RouteError (error : string) (detail : option string)
| RouteJson (response : AIResponse) (tier : string)
    (echo : list (string * string)).

Record Reply : Type := mkReply
  { reply_status : Z;
    reply_payload : RoutePayload }.

Section OneShotRoutes.

Variable env : Env.
Variable gw : Gateway.

(** [req.body] of the code endpoint. *)
Record CodeBody : Type := mkCodeBody
  { code_prompt : option string;
    code_language : option string;
    code_tier : option string }.

Definition code_userMessage (body : CodeBody) : string :=
  let prompt := Js.str_value (code_prompt body) in
  let language := code_language body in
  if Js.truthy_str language
  then "Generate " ++ Js.str_value language ++ " code: " ++ prompt
  else "Generate code: " ++ prompt.

(** [router.post('/api/ai/code', ...)] *)
Definition code_handler (body : CodeBody) : M Reply :=
  try_catch
    (let prompt := code_prompt body in
     let language := code_language body in
     let tier := code_tier body in
     if negb (Js.truthy_str prompt) then
       ret (mkReply 400 (RouteError "Prompt is required" None))
     else if negb (Js.truthy_str tier) then
       ret (mkReply 400 (RouteError "Tier is required" None))
     else
       let userMessage := code_userMessage body in
       response <- codeGeneration env gw
         (mkAIRequest [mkMessage "user" (Text userMessage)]
            (Js.str_value tier) None None) ;;
       ret (mkReply 200
              (RouteJson response (Js.str_value tier)
                 [("language", Js.or_str language "auto")])))
    (fun error =>
       ret (mkReply 500
              (RouteError "Code generation failed" (Some (message error))))).

(** [req.body] of the generate endpoint. *)
Record GenerateBody : Type := mkGenerateBody
  { generate_prompt : option string;
    generate_contentType : option string;
    generate_tone : option string;
    generate_tier : option string }.

Definition generate_userMessage (body : GenerateBody) : string :=
  let prompt := Js.str_value (generate_prompt body) in
  let contentType := generate_contentType body in
  let tone := generate_tone body in
  let userMessage := prompt in
  let userMessage :=
    if Js.truthy_str contentType
    then "Generate " ++ Js.str_value contentType ++ ": " ++ prompt
    else userMessage in
  if Js.truthy_str tone
  then userMessage ++ JSON.newline ++ JSON.newline ++ "Tone: "
       ++ Js.str_value tone
  else userMessage.

(** [router.post('/api/ai/generate', ...)] *)
Definition generate_handler (body : GenerateBody) : M Reply :=
  try_catch
    (let prompt := generate_prompt body in
     let contentType := generate_contentType body in
     let tone := generate_tone body in
     let tier := generate_tier body in
     if negb (Js.truthy_str prompt) then
       ret (mkReply 400 (RouteError "Prompt is required" None))
     else if negb (Js.truthy_str tier) then
       ret (mkReply 400 (RouteError "Tier is required" None))
     else
       let userMessage := generate_userMessage body in
       response <- contentGeneration env gw
         (mkAIRequest [mkMessage "user" (Text userMessage)]
            (Js.str_value tier) None None) ;;
       ret (mkReply 200
              (RouteJson response (Js.str_value tier)
                 [("contentType", Js.or_str contentType "general");
                  ("tone", Js.or_str tone "neutral")])))
    (fun error =>
       ret (mkReply 500
              (RouteError "Content generation failed"
                 (Some (message error))))).

End OneShotRoutes.

(** ** The prompt table of the analyze route *)

(** What [taskPrompts[task]] evaluates to: one of the table's templates
    or a member inherited from [Object.prototype]. *)
Inductive PromptRef : Type :=
| PromptText (s : string)
| PromptInherited (key : string).

Definition taskPrompts (text : string) : list (string * string) :=
  [ ("summarize",
     "Summarize the following text concisely:" ++ JSON.newline
     ++ JSON.newline ++ text);
    ("analyze",
     "Analyze the following text and provide key insights:" ++ JSON.newline
     ++ JSON.newline ++ text);
    ("sentiment",
     "Analyze the sentiment of the following text:" ++ JSON.newline
     ++ JSON.newline ++ text);
    ("keywords",
     "Extract key keywords and topics from the following text:"
     ++ JSON.newline ++ JSON.newline ++ text) ].

(** [taskPrompts[task] || `Analyze this text:\n\n${text}`]; a missing
    [task] indexes the table with the key [undefined]. *)
Definition analyze_userMessage (text : string) (task : option string)
  : PromptRef :=
  let key := match task with Some t => t | None => "undefined" end in
  let generic :=
    "Analyze this text:" ++ JSON.newline ++ JSON.newline ++ text in
  match Js.assoc key (taskPrompts text) with
  | Some template =>
      if template =? "" then PromptText generic else PromptText template
  | None =>
      if Js.mem key Js.Object_prototype_keys then PromptInherited key
      else PromptText generic
  end.

(** ** The client: [AIShowcase.tsx] *)

Module Client.

(** [useWallet()] as far as the request code reads it. *)
Record Wallet : Type := mkWallet
  { connected : bool;
    publicKey : option string }.

(** A request as it leaves the client: the URL and
    [JSON.stringify({ ...body, tier })]. *)
Record Request (B : Type) : Type := mkRequest
  { req_url : string;
    req_body : B;
    req_tier : string }.
Arguments mkRequest {B} req_url req_body req_tier.

(** A value thrown or rejected with: an [Error] object, or a value of
    any other kind (a string, a plain object), for which
    [error instanceof Error] is false; [shown] is how such a value
    prints. *)
Inductive Thrown : Type :=
| ErrorObject (e : Error)
| OtherValue (shown : string).

(** How an awaited promise settles. *)
Inductive Settled (A : Type) : Type :=
| Resolved (a : A)
| Rejected (t : Thrown).
Arguments Resolved {A} a.
Arguments Rejected {A} t.

(** A [Response]: [ok], [status], what [text()] resolves to and what
    [json()] does. *)
Record Response (P : Type) : Type := mkResponse
  { resp_ok : bool;
    resp_status : Z;
    resp_text : string;
    resp_json : Settled P }.
Arguments mkResponse {P} resp_ok resp_status resp_text resp_json.
Arguments resp_ok {P} r.
Arguments resp_status {P} r.
Arguments resp_text {P} r.
Arguments resp_json {P} r.

(** What the client puts on the network. *)
Inductive NetCall (B : Type) : Type :=
| PlainFetch (request : Request B)
| PaidRequest (request : Request B) (payer : string).
Arguments PlainFetch {B} request.
Arguments PaidRequest {B} request payer.

Section MakeAIRequest.

Variables B P : Type.

(** [import.meta.env.VITE_API_URL] *)
Variable VITE_API_URL : option string.

(** The network: the browser's [fetch] and the payment client's
    [makeRequest]. *)
Variable fetch : Request B -> Settled (Response P).
Variable makeRequest : Request B -> string -> Settled (Response P).

Definition API_URL : string := Js.or_str VITE_API_URL "http://localhost:3001".

(** The [try] block of [makeAIRequest]. *)
Definition makeAIRequest_try (wallet : Wallet) (endpoint : string)
  (body : B) (tier : string) (price : QArith_base.Q)
  : Settled P * list (NetCall B) :=
  let fullEndpoint := API_URL ++ endpoint in
  let request := mkRequest fullEndpoint body tier in
  if QArith_base.Qeq_bool price (QArith_base.Qmake 0 1) then
    match fetch request with
    | Rejected t => (Rejected t, [PlainFetch request])
    | Resolved response =>
        if negb (resp_ok response) then
          (Rejected
             (ErrorObject
                (mkError ("Request failed: " ++ resp_text response))),
           [PlainFetch request])
        else (resp_json response, [PlainFetch request])
    end
  else
    match publicKey wallet with
    | None =>
        (Rejected
           (ErrorObject
              (mkError "Please connect your wallet for paid features")),
         [])
    | Some payer =>
        match makeRequest request payer with
        | Rejected t => (Rejected t, [PaidRequest request payer])
        | Resolved response =>
            if negb (resp_ok response) then
              if (resp_status response =? 402)%Z then
                (Rejected
                   (ErrorObject
                      (mkError
                         "Payment required. Please approve the transaction in your wallet.")),
                 [PaidRequest request payer])
              else
                (Rejected
                   (ErrorObject
                      (mkError ("Request failed: " ++ resp_text response))),
                 [PaidRequest request payer])
            else (resp_json response, [PaidRequest request payer])
        end
    end.

(** The [catch] block of [makeAIRequest]: what it throws for the value
    it caught.  Only an [Error] object is looked at
    ([error instanceof Error]); any other value is thrown again as it
    is. *)
Definition makeAIRequest_catch (error : Thrown) : Thrown :=
  match error with
  | ErrorObject e =>
      if JsString.includes "User rejected" (message e) then
        ErrorObject
          (mkError
             "Transaction cancelled. Please approve the wallet transaction to continue.")
      else if JsString.includes
                "Payment required but no payment details provided"
                (message e) then
        ErrorObject
          (mkError "Please connect your wallet to use this paid feature.")
      else error
  | OtherValue _ => error
  end.

(** [price > 0] *)
Definition positive (price : QArith_base.Q) : bool :=
  negb (QArith_base.Qle_bool price (QArith_base.Qmake 0 1)).

Definition makeAIRequest (wallet : Wallet) (endpoint : string) (body : B)
  (tier : string) (price : QArith_base.Q)
  : Settled P * list (NetCall B) :=
  if positive price && negb (connected wallet) then
    (Rejected
       (ErrorObject
          (mkError "Please connect your wallet to use paid features")),
     [])
  else if positive price
          && negb (match publicKey wallet with
                   | Some _ => true
                   | None => false
                   end) then
    (Rejected
       (ErrorObject
          (mkError
             "Wallet connected but public key not available. Please try reconnecting your wallet.")),
     [])
  else
    match makeAIRequest_try wallet endpoint body tier price with
    | (Resolved payload, net) => (Resolved payload, net)
    | (Rejected error, net) => (Rejected (makeAIRequest_catch error), net)
    end.

End MakeAIRequest.

(** The [features] table: identifier, tier and price in SOL. *)
Definition features : list (string * (string * QArith_base.Q)) :=
  [ ("chat", ("free", QArith_base.Qmake 0 1));
    ("code", ("premium", QArith_base.Qmake 1 1000));
    ("analyze", ("premium", QArith_base.Qmake 1 1000));
    ("generate", ("ultra-premium", QArith_base.Qmake 5 1000));
    ("vision", ("enterprise", QArith_base.Qmake 1 100)) ].

(** [features.find((f) => f.id === id)!.tier], read at the identifiers of
    the table only (on any other the source throws). *)
Definition feature_tier (id : string) : string :=
  match Js.assoc id features with
  | Some (tier, _) => tier
  | None => ""
  end.

(** The body [handleVisionAnalysis] hands to [makeAIRequest], with the
    tier [makeAIRequest] adds to it, as the vision route reads it. *)
Definition vision_request_body (prompt imageUrl : string) : VisionBody :=
  if JsString.startsWith "data:" imageUrl
  then mkVisionBody (Some prompt) None (Some imageUrl)
         (Some (feature_tier "vision"))
  else mkVisionBody (Some prompt) (Some imageUrl) None
         (Some (feature_tier "vision")).

End Client.

(** A required field of the vision body is missing. *)
Definition vision_incomplete (body : VisionBody) : bool :=
  negb (Js.truthy_str (vision_prompt body))
  || (negb (Js.truthy_str (vision_imageUrl body))
      && negb (Js.truthy_str (vision_imageBase64 body)))
  || negb (Js.truthy_str (vision_tier body)).

(** ** More sample gateways, wallets and networks *)

Module Fixture.

(** The SDK client rejects, the first direct call fails on the network
    and every later one gets a 500. *)
Definition gw_first_broken : Gateway :=
  mkGateway
    (fun _ _ => SdkRejects (mkError "socket hang up"))
    (fun _ _ => StreamRejects (mkError "socket hang up"))
    (fun n _ =>
       if (n =? 0)%nat then FetchRejects (mkError "fetch failed")
       else Sample.http 500 Sample.no_data).




Definition free_price : QArith_base.Q := QArith_base.Qmake 0 1.
Definition vision_price : QArith_base.Q := QArith_base.Qmake 1 100.

Definition no_wallet : Client.Wallet := Client.mkWallet false None.
Definition phantom : Client.Wallet :=
  Client.mkWallet true (Some "7xKXtg2CW87d97TXJSDpbD5jBkheTqA83TZRuJosgAsU").

(** A server that answers every plain request with [content] and
    refuses every paid one with the given status and text. *)
Definition net_fetch (content : string)
  : Client.Request unit -> Client.Settled (Client.Response string) :=
  fun _ =>
    Client.Resolved
      (Client.mkResponse true 200 "" (Client.Resolved content)).

Definition net_refuse (code : Z) (text : string)
  : Client.Request unit -> string
    -> Client.Settled (Client.Response string) :=
  fun _ _ =>
    Client.Resolved
      (Client.mkResponse false code text
         (Client.Rejected
            (Client.ErrorObject (mkError "Unexpected token")))).

(** A payment client that rejects with a value that is no [Error]
    object. *)
Definition net_reject_with (shown : string)
  : Client.Request unit -> string
    -> Client.Settled (Client.Response string) :=
  fun _ _ => Client.Rejected (Client.OtherValue shown).

End Fixture.

(** * Properties *)

(** ** Tier policy *)

Lemma getModelForTier_recognized :
  getModelForTier "free" = ModelId "mistralai/mistral-7b-instruct:free" /\
  getModelForTier "premium" = ModelId "openai/gpt-4o-mini" /\
  getModelForTier "ultra-premium" = ModelId "anthropic/claude-3.5-sonnet" /\
  getModelForTier "enterprise" = ModelId "anthropic/claude-3.7-sonnet".
Proof. repeat split. Qed.

(** Outside the names inherited from [Object.prototype] the permissive
    default works as the policy says: the empty string and mistyped
    tiers resolve to the free tier's model. *)
Lemma getModelForTier_unknown (t : string) :
  recognized_tier t = false ->
  Js.mem t Js.Object_prototype_keys = false ->
  getModelForTier t = TIER_MODELS_free.
Proof.
  unfold recognized_tier, getModelForTier, lookup_or, lookup.
  cbn [Js.mem Js.assoc TIER_MODELS].
  intros Hrec Hproto.
  destruct ("free" =? t); [discriminate|].
  destruct ("premium" =? t); [discriminate|].
  destruct ("ultra-premium" =? t); [discriminate|].
  destruct ("enterprise" =? t); [discriminate|].
  rewrite Hproto. reflexivity.
Qed.

Example getModelForTier_mistyped :
  getModelForTier "" = TIER_MODELS_free
  /\ getModelForTier "ultra" = TIER_MODELS_free
  /\ getModelForTier "Free" = TIER_MODELS_free.
Proof. repeat split. Qed.

(** C5 (defect in the code): the permissive default does not cover every
    unrecognized tier value.  The tier [constructor] is not one of the
    four recognized tiers, yet [getModelForTier] does not answer the free
    tier's default model for it: the bracket lookup in [TIER_MODELS]
    finds the member the object literal inherits from
    [Object.prototype], which is truthy, so the [||] default is not
    taken. *)
Theorem getModelForTier_inherited_key :
  recognized_tier "constructor" = false /\
  getModelForTier "constructor" = ProtoMember "constructor" /\
  getModelForTier "constructor" <> TIER_MODELS_free.
Proof. repeat split. discriminate. Qed.

(** ** The candidate loop of the secondary path *)

Lemma surjective_pair {A B : Type} (p : A * B) : p = (fst p, snd p).
Proof. destruct p; reflexivity. Qed.

Section FallbackLoop.

Variable env : Env.
Variable gw : Gateway.
Variable request : AIRequest.

Lemma handleResponse_state i n m r st :
  snd (handleResponse i n m r st) = st.
Proof.
  unfold handleResponse, JSON_parse, bind, throw, ret.
  destruct (ok r); cbn [negb]; destruct (json r) as [e | data]; try reflexivity.
  - destruct (gw_choices data) as [[| choice cs] |]; try reflexivity.
    destruct (gw_message choice); reflexivity.
  - destruct ((status r =? 429)%Z && (i <? n - 1)%nat); reflexivity.
Qed.

Lemma after_fetches_one st m :
  after_fetches env request st [m]
  = mkState (client st) (calls st ++ [Fetch (fetchInit env request m)])
      (res st).
Proof. reflexivity. Qed.

Lemma candidate_try_state i n m st :
  snd (candidate_try env gw request i n m st)
  = after_fetches env request st [m].
Proof.
  rewrite after_fetches_one.
  unfold candidate_try, bind, js_fetch.
  destruct (fetch gw (length (calls st)) (fetchInit env request m))
    as [e | r]; [reflexivity |].
  apply handleResponse_state.
Qed.

Lemma candidate_try_well_formed i n m st :
  well_formed (fetch gw (length (calls st)) (fetchInit env request m)) = true ->
  exists r data choice cs msg,
    fetch gw (length (calls st)) (fetchInit env request m) = FetchResolves r
    /\ ok r = true /\ json r = Parsed data
    /\ gw_choices data = Some (choice :: cs)
    /\ gw_message choice = Some msg
    /\ fst (candidate_try env gw request i n m st)
       = Normal (Return (gw_result data msg m)).
Proof.
  unfold candidate_try, bind, js_fetch, well_formed.
  destruct (fetch gw (length (calls st)) (fetchInit env request m))
    as [e | r]; [discriminate |].
  intros H. apply andb_prop in H. destruct H as [Hok H].
  destruct (json r) as [e | data] eqn:Hjson; [discriminate |].
  destruct (gw_choices data) as [[| choice cs] |] eqn:Hch; try discriminate.
  destruct (gw_message choice) as [msg |] eqn:Hmsg; [| discriminate].
  exists r, data, choice, cs, msg. repeat split; try assumption.
  unfold handleResponse, JSON_parse, bind, ret.
  rewrite Hok, Hjson. cbn. rewrite Hch, Hmsg. reflexivity.
Qed.

Lemma candidate_try_not_well_formed i n m st :
  well_formed (fetch gw (length (calls st)) (fetchInit env request m)) = false ->
  (fst (candidate_try env gw request i n m st) = Normal Continue
   /\ (i <? n - 1)%nat = true)
  \/ exists e, fst (candidate_try env gw request i n m st) = Throw e.
Proof.
  unfold candidate_try, bind, js_fetch, well_formed.
  destruct (fetch gw (length (calls st)) (fetchInit env request m))
    as [e | r]; [intros _; right; exists e; reflexivity |].
  unfold handleResponse, JSON_parse, bind, throw, ret.
  destruct (ok r); cbn [negb andb].
  - destruct (json r) as [e | data]; [intros _; right; eexists; reflexivity |].
    destruct (gw_choices data) as [[| choice cs] |];
      try (intros _; right; eexists; reflexivity).
    destruct (gw_message choice); [discriminate |].
    intros _; right; eexists; reflexivity.
  - intros _. destruct (json r) as [e | data]; [right; eexists; reflexivity |].
    destruct (status r =? 429)%Z; cbn [andb]; [| right; eexists; reflexivity].
    destruct (i <? n - 1)%nat; [left; split; reflexivity | right; eexists; reflexivity].
Qed.

Lemma tryCandidate_well_formed i n m st :
  well_formed (fetch gw (length (calls st)) (fetchInit env request m)) = true ->
  exists r data choice cs msg,
    fetch gw (length (calls st)) (fetchInit env request m) = FetchResolves r
    /\ ok r = true /\ json r = Parsed data
    /\ gw_choices data = Some (choice :: cs)
    /\ gw_message choice = Some msg
    /\ tryCandidate env gw request i n m st
       = (Normal (Return (gw_result data msg m)),
          after_fetches env request st [m]).
Proof.
  intros H.
  destruct (candidate_try_well_formed i n m st H)
    as (r & data & choice & cs & msg & Hf & Hok & Hj & Hc & Hm & Hrun).
  exists r, data, choice, cs, msg. repeat split; try assumption.
  unfold tryCandidate, try_catch.
  rewrite (surjective_pair (candidate_try env gw request i n m st)).
  rewrite Hrun, candidate_try_state. reflexivity.
Qed.

Lemma tryCandidate_advances i n m st :
  well_formed (fetch gw (length (calls st)) (fetchInit env request m)) = false ->
  i <> n - 1 ->
  tryCandidate env gw request i n m st
  = (Normal Continue, after_fetches env request st [m]).
Proof.
  intros H Hi.
  unfold tryCandidate, try_catch.
  rewrite (surjective_pair (candidate_try env gw request i n m st)).
  rewrite candidate_try_state.
  destruct (candidate_try_not_well_formed i n m st H) as [[Hrun _] | [e Hrun]];
    rewrite Hrun; [reflexivity |].
  destruct (Nat.eqb_spec i (n - 1)); [contradiction | reflexivity].
Qed.

Lemma tryCandidate_last n m st :
  well_formed (fetch gw (length (calls st)) (fetchInit env request m)) = false ->
  exists e,
    fst (candidate_try env gw request (n - 1) n m st) = Throw e
    /\ tryCandidate env gw request (n - 1) n m st
       = (Throw (mkError ("AI request failed: " ++ message e)),
          after_fetches env request st [m]).
Proof.
  intros H.
  destruct (candidate_try_not_well_formed (n - 1) n m st H)
    as [[_ Hlt] | [e Hrun]].
  - apply Nat.ltb_lt in Hlt. lia.
  - exists e. split; [assumption |].
    unfold tryCandidate, try_catch.
    rewrite (surjective_pair (candidate_try env gw request (n - 1) n m st)).
    rewrite Hrun, candidate_try_state, Nat.eqb_refl. reflexivity.
Qed.

Lemma candidate_try_last_error n m st e :
  fst (candidate_try env gw request (n - 1) n m st) = Throw e ->
  underlying_error (fetch gw (length (calls st)) (fetchInit env request m))
  = Some e.
Proof.
  unfold candidate_try, bind, js_fetch, underlying_error.
  destruct (fetch gw (length (calls st)) (fetchInit env request m))
    as [e0 | r]; cbn [fst]; [intros [= ->]; reflexivity |].
  unfold handleResponse, JSON_parse, bind, throw, ret.
  rewrite Nat.ltb_irrefl, andb_false_r.
  destruct (ok r); cbn [negb];
    destruct (json r) as [e0 | data]; cbn [fst];
    try (intros [= ->]; reflexivity).
  - destruct (gw_choices data) as [[| choice cs] |]; cbn [fst];
      try (intros [= <-]; reflexivity).
    destruct (gw_message choice); cbn [fst]; intros [= <-]. reflexivity.
  - intros [= <-]. do 2 f_equal. f_equal.
    destruct (gw_error data) as [[[em |]] |]; reflexivity.
Qed.

Lemma after_fetches_nil st : after_fetches env request st [] = st.
Proof.
  destruct st. unfold after_fetches, after_calls. cbn. now rewrite app_nil_r.
Qed.

Lemma after_fetches_cons st m ms :
  after_fetches env request (after_fetches env request st [m]) ms
  = after_fetches env request st (m :: ms).
Proof.
  unfold after_fetches, after_calls. cbn. now rewrite <- app_assoc.
Qed.

Lemma reply_in_shift st m ms j :
  reply_in env gw request (after_fetches env request st [m]) ms j
  = reply_in env gw request st (m :: ms) (S j).
Proof.
  unfold reply_in. cbn. rewrite length_app. cbn.
  now replace (length (calls st) + 1 + j) with (length (calls st) + S j)
    by lia.
Qed.

Lemma reply_in_head st m ms :
  reply_in env gw request st (m :: ms) 0
  = fetch gw (length (calls st)) (fetchInit env request m).
Proof. unfold reply_in. cbn. now rewrite Nat.add_0_r. Qed.

(** The three ways the candidate loop can end. *)
Lemma candidateLoop_run rest :
  forall i n st,
    n = i + length rest ->
    (rest = []
     /\ candidateLoop env gw request n i rest st
        = (Throw (mkError "AI request failed: All models exhausted"), st))
    \/
    (exists k r data choice cs msg,
        k < length rest
        /\ (forall j, j < k ->
              well_formed (reply_in env gw request st rest j) = false)
        /\ reply_in env gw request st rest k = FetchResolves r
        /\ ok r = true /\ json r = Parsed data
        /\ gw_choices data = Some (choice :: cs)
        /\ gw_message choice = Some msg
        /\ candidateLoop env gw request n i rest st
           = (Normal (gw_result data msg (nth k rest TIER_MODELS_free)),
              after_fetches env request st (firstn (S k) rest)))
    \/
    (rest <> []
     /\ (forall j, j < length rest ->
           well_formed (reply_in env gw request st rest j) = false)
     /\ exists e,
         fst (candidate_try env gw request (n - 1) n
                (nth (length rest - 1) rest TIER_MODELS_free)
                (after_fetches env request st
                   (firstn (length rest - 1) rest)))
         = Throw e
         /\ candidateLoop env gw request n i rest st
            = (Throw (mkError ("AI request failed: " ++ message e)),
               after_fetches env request st rest)).
Proof.
  induction rest as [| m rest' IH]; intros i n st Hn.
  - left. split; reflexivity.
  - right. cbn [candidateLoop]. unfold bind.
    destruct (well_formed (fetch gw (length (calls st))
                             (fetchInit env request m))) eqn:Hwf.
    + left.
      destruct (tryCandidate_well_formed i n m st Hwf)
        as (r & data & choice & cs & msg & Hf & Hok & Hj & Hc & Hm & Hrun).
      exists 0, r, data, choice, cs, msg. rewrite Hrun.
      repeat split; try assumption.
      * cbn; lia.
      * intros j Hj0; lia.
      * now rewrite reply_in_head.
    + destruct (Nat.eq_dec i (n - 1)) as [Hlast | Hmore].
      * right.
        assert (Hnil : rest' = []).
        { destruct rest'; [reflexivity | cbn in Hn; lia]. }
        subst rest'. change (length [m] - 1) with 0. cbn [firstn nth].
        rewrite after_fetches_nil. subst i.
        destruct (tryCandidate_last n m st Hwf) as (e & He & Hrun).
        split; [discriminate |]. split.
        { intros j Hj. assert (j = 0) by lia. subst j.
          now rewrite reply_in_head. }
        exists e. split; [assumption |]. now rewrite Hrun.
      * rewrite (tryCandidate_advances i n m st Hwf Hmore).
        destruct (IH (S i) n (after_fetches env request st [m]))
          as [[Hnil _] | [Hsucc | Hfail]].
        { cbn in Hn; lia. }
        { subst rest'. cbn in Hn. lia. }
        { left.
          destruct Hsucc as (k & r & data & choice & cs & msg & Hk & Hbefore
                             & Hf & Hok & Hj & Hc & Hm & Hrun).
          exists (S k), r, data, choice, cs, msg.
          repeat split; try assumption.
          - cbn; lia.
          - intros j Hjk. destruct j as [| j].
            + now rewrite reply_in_head.
            + rewrite <- reply_in_shift. apply Hbefore. lia.
          - now rewrite <- reply_in_shift.
          - rewrite Hrun, after_fetches_cons. reflexivity. }
        { right.
          destruct Hfail as (Hne & Hall & e & He & Hrun).
          split; [discriminate |]. split.
          - intros j Hj. destruct j as [| j].
            + now rewrite reply_in_head.
            + rewrite <- reply_in_shift. apply Hall. cbn in Hj. lia.
          - exists e. split.
            + destruct rest' as [| m' rest'']; [contradiction |].
              cbn [length] in *.
              replace (S (S (length rest'')) - 1) with (S (length rest''))
                by lia.
              replace (S (length rest'') - 1) with (length rest'') in He
                by lia.
              rewrite after_fetches_cons in He. exact He.
            + rewrite Hrun, after_fetches_cons. reflexivity. }
Qed.

End FallbackLoop.


Lemma modelsToTry_paid request :
  tier request <> "free" ->
  modelsToTry request = [getModelForTier (tier request)].
Proof.
  unfold modelsToTry. intros H.
  destruct (String.eqb_spec (tier request) "free"); [contradiction | reflexivity].
Qed.

Lemma modelsToTry_nonempty request : modelsToTry request <> [].
Proof.
  unfold modelsToTry. destruct (tier request =? "free"); discriminate.
Qed.


Lemma well_formed_intro o r data choice cs msg :
  o = FetchResolves r -> ok r = true -> json r = Parsed data ->
  gw_choices data = Some (choice :: cs) -> gw_message choice = Some msg ->
  well_formed o = true.
Proof. intros -> Hok Hj Hc Hm. cbn. now rewrite Hok, Hj, Hc, Hm. Qed.

(** The fallback makes its direct calls for an initial segment of the
    candidate list, one call per candidate. *)
Lemma chatCompletionFallback_calls env gw request st :
  exists k,
    1 <= k <= length (modelsToTry request)
    /\ snd (chatCompletionFallback env gw request st)
       = after_fetches env request st (firstn k (modelsToTry request)).
Proof.
  unfold chatCompletionFallback.
  destruct (candidateLoop_run env gw request (modelsToTry request) 0
              (length (modelsToTry request)) st eq_refl)
    as [[Hnil _] | [Hsucc | Hfail]].
  - now apply modelsToTry_nonempty in Hnil.
  - destruct Hsucc as (k & r & data & choice & cs & msg & Hk & _ & _ & _ & _
                       & _ & _ & Hrun).
    exists (S k). rewrite Hrun. split; [lia | reflexivity].
  - destruct Hfail as (Hne & _ & e & _ & Hrun).
    exists (length (modelsToTry request)). rewrite Hrun, firstn_all.
    split; [| reflexivity].
    destruct (modelsToTry request); [contradiction | cbn; lia].
Qed.

Lemma length_fetches env request ms :
  length (fetches env request ms) = length ms.
Proof. unfold fetches. apply length_map. Qed.

(** The call made after the calls for the first [j] candidates is
    answered by the reply for candidate [j]. *)
Lemma fetch_after_fetches env gw request st j :
  j <= length (modelsToTry request) ->
  fetch gw
    (length (calls (after_fetches env request st
                      (firstn j (modelsToTry request)))))
    (fetchInit env request (nth j (modelsToTry request) TIER_MODELS_free))
  = reply env gw request st j.
Proof.
  intros Hj. unfold reply, reply_in, after_fetches, after_calls.
  cbn [calls]. now rewrite length_app, length_fetches, firstn_length_le.
Qed.

Lemma new_calls_after st st' cs :
  calls st' = (calls st ++ cs)%list -> new_calls st st' = cs.
Proof.
  unfold new_calls. intros ->.
  now rewrite skipn_app, skipn_all, Nat.sub_diag.
Qed.

Lemma new_calls_after_fetches env request st ms :
  new_calls st (after_fetches env request st ms) = fetches env request ms.
Proof. now apply new_calls_after. Qed.

(** What the direct calls for a list of candidates ask for: call number
    [j] names candidate [j] and carries the request's messages and its
    output-token bound, when that is set and not 0. *)
Lemma call_body_fetches env request ms :
  map call_body (fetches env request ms)
  = map (fun m => (m, messages request, Js.spread_num (maxTokens request)))
      ms.
Proof. unfold fetches. rewrite map_map. reflexivity. Qed.


Lemma is_fetch_fetches env request ms :
  forallb is_fetch (fetches env request ms) = true.
Proof. induction ms as [| m ms IH]; [reflexivity | exact IH]. Qed.

Lemma nth_error_fetches env request ms j :
  j < length ms ->
  nth_error (fetches env request ms) j
  = Some (Fetch (fetchInit env request (nth j ms TIER_MODELS_free))).
Proof.
  intros Hj. unfold fetches. rewrite nth_error_map.
  now rewrite (nth_error_nth' ms TIER_MODELS_free Hj).
Qed.

Lemma nth_firstn {A : Type} (l : list A) k j d :
  j < k -> nth j (firstn k l) d = nth j l d.
Proof.
  revert k j. induction l as [| x l IH]; intros [| k] [| j] H; cbn;
    try lia; try reflexivity.
  apply IH. lia.
Qed.



(** C2, amended: when no candidate of the secondary path gives a
    well-formed reply, the dispatch fails with the error
    [AI request failed: <m>], where [<m>] is the message of the error
    raised in the [try] block of the last candidate, the underlying
    error of the reply to the last call.  Every candidate was
    called exactly once, in order: the four fallback models for the tier
    [free], the tier's one model otherwise.  The error is not
    distinguishable from a single-candidate failure: a run with one
    candidate that fails with the same underlying message ends with the
    identical error. *)
Theorem exhaustion_error env gw request st :
  (forall i, i < length (modelsToTry request) ->
     well_formed (reply env gw request st i) = false) ->
  exists e,
    fst (candidate_try env gw request
           (length (modelsToTry request) - 1) (length (modelsToTry request))
           (nth (length (modelsToTry request) - 1) (modelsToTry request)
              TIER_MODELS_free)
           (after_fetches env request st
              (firstn (length (modelsToTry request) - 1)
                 (modelsToTry request))))
    = Throw e
    /\ underlying_error
         (reply env gw request st (length (modelsToTry request) - 1))
       = Some e
    /\ chatCompletionFallback env gw request st
       = (Throw (mkError ("AI request failed: " ++ message e)),
          after_fetches env request st (modelsToTry request))
    /\ forallb is_fetch
         (new_calls st (snd (chatCompletionFallback env gw request st)))
       = true
    /\ map call_body
         (new_calls st (snd (chatCompletionFallback env gw request st)))
       = map (fun m =>
                (m, messages request, Js.spread_num (maxTokens request)))
           (if tier request =? "free" then FREE_MODEL_FALLBACKS
            else [getModelForTier (tier request)])
    /\ (forall gw1 request1 st1 e1,
          tier request1 <> "free" ->
          fst (candidate_try env gw1 request1 0 1
                 (getModelForTier (tier request1)) st1) = Throw e1 ->
          message e1 = message e ->
          fst (chatCompletionFallback env gw1 request1 st1)
          = fst (chatCompletionFallback env gw request st)).
Proof.
  intros Hall. unfold chatCompletionFallback at 1 2 3.
  destruct (candidateLoop_run env gw request (modelsToTry request) 0
              (length (modelsToTry request)) st eq_refl)
    as [[Hnil _] | [Hsucc | Hfail]].
  - now apply modelsToTry_nonempty in Hnil.
  - destruct Hsucc as (k & r & data & choice & cs & msg & Hk & _ & Hf & Hok
                       & Hj & Hc & Hm & _).
    specialize (Hall k Hk). unfold reply in Hall.
    rewrite (well_formed_intro _ _ _ _ _ _ Hf Hok Hj Hc Hm) in Hall.
    discriminate.
  - destruct Hfail as (_ & _ & e & He & Hrun).
    exists e. split; [exact He |]. split.
    { apply candidate_try_last_error in He.
      rewrite fetch_after_fetches in He by lia. exact He. }
    split; [exact Hrun |].
    rewrite Hrun. cbn [snd fst]. rewrite new_calls_after_fetches.
    split; [apply is_fetch_fetches |]. split.
    + rewrite call_body_fetches. reflexivity.
    + intros gw1 request1 st1 e1 Hpaid He1 Hmsg.
      unfold chatCompletionFallback.
      rewrite (modelsToTry_paid request1 Hpaid).
      cbn [length candidateLoop]. unfold bind, tryCandidate, try_catch.
      rewrite (surjective_pair
                 (candidate_try env gw1 request1 0 1
                    (getModelForTier (tier request1)) st1)).
      rewrite He1, Hrun. cbn. now rewrite Hmsg.
Qed.

Lemma exhaustion_error_witness :
  (forall i, i < length (modelsToTry (Sample.request "free" None)) ->
     well_formed (reply Sample.env Sample.gw_all_down
                    (Sample.request "free" None) Sample.st0 i) = false)
  /\ fst (chatCompletionFallback Sample.env Sample.gw_all_down
            (Sample.request "free" None) Sample.st0)
     = Throw (mkError "AI request failed: OpenRouter API error (503): {}")
  /\ map call_model
       (new_calls Sample.st0
          (snd (chatCompletionFallback Sample.env Sample.gw_all_down
                  (Sample.request "free" None) Sample.st0)))
     = FREE_MODEL_FALLBACKS.
Proof.
  assert (H : forall i,
             i < length (modelsToTry (Sample.request "free" None)) ->
             well_formed (reply Sample.env Sample.gw_all_down
                            (Sample.request "free" None) Sample.st0 i)
             = false) by (intros i _; reflexivity).
  split; [exact H |].
  destruct (exhaustion_error Sample.env Sample.gw_all_down
              (Sample.request "free" None) Sample.st0 H)
    as (e & He & _ & Hrun & _ & _ & _).
  rewrite Hrun. cbn in He. injection He as <-. split; reflexivity.
Defined.

(** C2 as stated fails: the exhaustion error is not distinguishable from
    a single-candidate failure.  With every direct call answered by a
    503, a free-tier request exhausts its four candidates and a
    premium-tier request fails on its single candidate, and both
    dispatches end with the same error,
    [AI request failed: OpenRouter API error (503): {}]. *)
Lemma exhaustion_is_not_distinguishable :
  length (modelsToTry (Sample.request "free" None)) = 4
  /\ length (modelsToTry (Sample.request "premium" None)) = 1
  /\ fst (chatCompletionFallback Sample.env Sample.gw_all_down
            (Sample.request "free" None) Sample.st0)
     = Throw (mkError "AI request failed: OpenRouter API error (503): {}")
  /\ fst (chatCompletionFallback Sample.env Sample.gw_all_down
            (Sample.request "premium" None) Sample.st0)
     = Throw (mkError "AI request failed: OpenRouter API error (503): {}")
  /\ map call_model
       (new_calls Sample.st0
          (snd (chatCompletionFallback Sample.env Sample.gw_all_down
                  (Sample.request "free" None) Sample.st0)))
     = [ ModelId "mistralai/mistral-7b-instruct:free";
         ModelId "google/gemini-2.0-flash-exp:free";
         ModelId "nousresearch/hermes-3-llama-3.1-405b:free";
         ModelId "microsoft/phi-3-mini-128k-instruct:free" ]
  /\ map call_model
       (new_calls Sample.st0
          (snd (chatCompletionFallback Sample.env Sample.gw_all_down
                  (Sample.request "premium" None) Sample.st0)))
     = [ ModelId "openai/gpt-4o-mini" ].
Proof. repeat split. Qed.




(** ** The primary path and its fall-through *)


Lemma getClient_calls env st :
  calls (snd (getClient env st)) = calls st
  /\ res (snd (getClient env st)) = res st.
Proof.
  unfold getClient. destruct (client st); [split; reflexivity |].
  destruct (negb (Js.truthy_str (OPENROUTER_API_KEY env))); split; reflexivity.
Qed.

(** The primary path of [chatCompletion] makes at most one remote call,
    the SDK call for the tier's model. *)
Lemma chatCompletion_try_calls env gw request st :
  exists sdk,
    ((sdk = []
      /\ exists e, fst (chatCompletion_try env gw request
                          (getModelForTier (tier request)) st) = Throw e)
     \/ sdk = [SdkSend (sendParams request)])
    /\ calls (snd (chatCompletion_try env gw request
                     (getModelForTier (tier request)) st))
       = (calls st ++ sdk)%list
    /\ res (snd (chatCompletion_try env gw request
                   (getModelForTier (tier request)) st))
       = res st.
Proof.
  unfold chatCompletion_try, bind.
  destruct (getClient env st) as [[c | e] st1] eqn:Hc;
    pose proof (getClient_calls env st) as [Hcalls Hres];
    rewrite Hc in Hcalls, Hres; cbn [snd] in Hcalls, Hres.
  - exists [SdkSend (sendParams request)]. split; [now right |].
    unfold client_chat_send.
    fold (sendParams request).
    destruct (chat_send gw (length (calls st1)) (sendParams request))
      as [e | response]; cbn [snd calls res].
    + now rewrite Hcalls, Hres.
    + destruct (sdk_choices response); cbn; now rewrite Hcalls, Hres.
  - exists []. split; [left; split; [reflexivity | now exists e] |].
    cbn [snd]. now rewrite app_nil_r.
Qed.

(** [chatCompletion] calls the SDK client at most once and then, if it
    calls the gateway directly, does so for an initial segment of the
    candidate list; it always makes at least one remote call. *)
Lemma chatCompletion_calls env gw request st :
  exists sdk k,
    (sdk = [] /\ 1 <= k \/ sdk = [SdkSend (sendParams request)])
    /\ k <= length (modelsToTry request)
    /\ calls (snd (chatCompletion env gw request st))
       = (calls st ++ sdk
          ++ fetches env request (firstn k (modelsToTry request)))%list.
Proof.
  destruct (chatCompletion_try_calls env gw request st)
    as (sdk & Hsdk & Hcalls & _).
  unfold chatCompletion, try_catch.
  destruct (chatCompletion_try env gw request (getModelForTier (tier request))
              st) as [[r | e] st1] eqn:Htry; cbn [snd fst] in *.
  - exists sdk, 0. split.
    + destruct Hsdk as [[_ [e He]] | Hsdk]; [discriminate | now right].
    + split; [lia |]. cbn. now rewrite app_nil_r.
  - destruct (chatCompletionFallback_calls env gw request st1)
      as (k & Hk & Hrun).
    exists sdk, k. split.
    + destruct Hsdk as [[Hnil _] | Hsdk]; [left; split; [assumption | lia] |
                                             now right].
    + split; [lia |]. rewrite Hrun. cbn. rewrite Hcalls.
      now rewrite <- app_assoc.
Qed.

(** [multimodalAnalysis] makes at most one remote call, through the SDK
    client, and never calls the gateway directly. *)
Lemma multimodalAnalysis_calls env gw request st :
  calls (snd (multimodalAnalysis env gw request st)) = calls st
  \/ calls (snd (multimodalAnalysis env gw request st))
     = (calls st ++ [SdkSend (visionParams request)])%list.
Proof.
  unfold multimodalAnalysis, try_catch, multimodalAnalysis_try, bind, throw.
  destruct (getClient env st) as [[c | e] st1] eqn:Hc;
    pose proof (getClient_calls env st) as [Hcalls _];
    rewrite Hc in Hcalls; cbn [snd] in Hcalls.
  - right. unfold client_chat_send. fold (visionParams request).
    destruct (chat_send gw (length (calls st1)) (visionParams request))
      as [e | response]; cbn [snd calls].
    + now rewrite Hcalls.
    + destruct (sdk_choices response); cbn; now rewrite Hcalls.
  - left. exact Hcalls.
Qed.

Lemma prepared_tier cap request : tier (prepared cap request) = tier request.
Proof. destruct cap; reflexivity. Qed.

Lemma dispatch_chat_family env gw cap request :
  cap <> Vision ->
  dispatch env gw cap request = chatCompletion env gw (prepared cap request).
Proof. destruct cap; intros H; [reflexivity .. | contradiction]. Qed.

(** What can make the primary path of [chatCompletion] fail: no client
    can be built, the SDK call rejects, or its reply holds no choice. *)
Lemma chatCompletion_try_failure_causes env gw request st e st' :
  chatCompletion_try env gw request (getModelForTier (tier request)) st
  = (Throw e, st') ->
  client_available env st = false
  \/ chat_send gw (length (calls st)) (sendParams request) = SdkRejects e
  \/ exists response,
      chat_send gw (length (calls st)) (sendParams request)
      = SdkResolves response
      /\ sdk_choices response = [].
Proof.
  unfold chatCompletion_try, bind, client_available.
  pose proof (getClient_calls env st) as [Hcalls _].
  unfold getClient in *.
  destruct (client st) as [c |].
  - cbn [snd] in Hcalls. unfold client_chat_send. fold (sendParams request).
    destruct (chat_send gw (length (calls st)) (sendParams request))
      as [e0 | response].
    + intros H. injection H as <- _. right. now left.
    + destruct (sdk_choices response) as [| choice cs] eqn:Hch;
        [| discriminate].
      intros _. right. right. now exists response.
  - destruct (Js.truthy_str (OPENROUTER_API_KEY env)); cbn [negb];
      [| intros _; now left].
    unfold client_chat_send. fold (sendParams request). cbn [calls].
    destruct (chat_send gw (length (calls st)) (sendParams request))
      as [e0 | response].
    + intros H. injection H as <- _. right. now left.
    + destruct (sdk_choices response) as [| choice cs] eqn:Hch;
        [| discriminate].
      intros _. right. right. now exists response.
Qed.

(** C1, amended: a failure of the primary path, whatever raised it, is
    answered by the secondary path for chat, code generation, text
    analysis and content generation: the dispatch is then the run of
    [chatCompletionFallback] on the prepared request from the state the
    failure left, and that run makes at least one direct call.  The
    vision dispatch has no secondary path: a failure of its primary path
    is rethrown as [Multimodal analysis failed: <message>] from the same
    state. *)
Theorem primary_failure_falls_through env gw cap request st e st' :
  primary env gw cap request st = (Throw e, st') ->
  match cap with
  | Vision =>
      dispatch env gw cap request st
      = (Throw (mkError ("Multimodal analysis failed: " ++ message e)), st')
  | _ =>
      falls_through env gw cap request st
      /\ exists k,
          1 <= k
          /\ snd (dispatch env gw cap request st)
             = after_fetches env (prepared cap request) st'
                 (firstn k (modelsToTry (prepared cap request)))
  end.
Proof.
  intros Hfail.
  assert (Hchat : cap <> Vision ->
            falls_through env gw cap request st
            /\ exists k,
                1 <= k
                /\ snd (dispatch env gw cap request st)
                   = after_fetches env (prepared cap request) st'
                       (firstn k (modelsToTry (prepared cap request)))).
  { intros Hcap.
    assert (Hprim : primary env gw cap request st
                    = chatCompletion_try env gw (prepared cap request)
                        (getModelForTier (tier (prepared cap request))) st).
    { destruct cap; try reflexivity. contradiction. }
    rewrite (dispatch_chat_family env gw cap request Hcap).
    unfold falls_through. rewrite (dispatch_chat_family env gw cap request Hcap).
    unfold chatCompletion, try_catch. rewrite <- Hprim, Hfail.
    split.
    - intros e0 st0 Heq. now inversion Heq.
    - destruct (chatCompletionFallback_calls env gw (prepared cap request) st')
        as (k & Hk & Hrun).
      exists k. split; [lia | exact Hrun]. }
  destruct cap; try (apply Hchat; discriminate).
  cbn [dispatch primary] in *.
  unfold multimodalAnalysis, try_catch. now rewrite Hfail.
Qed.

Lemma primary_failure_falls_through_witness :
  primary Sample.env Sample.gw_sdk_down Code (Sample.request "free" None)
    Sample.st0
  = (Throw (mkError "socket hang up"),
     mkState (Some (mkClient "sk-or-test" 60000))
       [SdkSend (sendParams (prepared Code (Sample.request "free" None)))] [])
  /\ fst (dispatch Sample.env Sample.gw_sdk_down Code
            (Sample.request "free" None) Sample.st0)
     = Normal (mkAIResponse "hi" (ModelId "google/gemini-2.0-flash-exp:free")
                 0 0 0).
Proof.
  split; [reflexivity |].
  destruct (primary_failure_falls_through Sample.env Sample.gw_sdk_down Code
              (Sample.request "free" None) Sample.st0 _ _ eq_refl)
    as [Hfall _].
  rewrite (Hfall _ _ eq_refl). reflexivity.
Defined.

(** C1 as stated fails for vision: with the SDK client down, the vision
    dispatch does not fall through; it throws, and the run holds no
    direct call, although the direct transport would have answered. *)
Lemma vision_primary_failure_is_final :
  ~ falls_through Sample.env Sample.gw_sdk_down Vision
      (Sample.request "free" None) Sample.st0
  /\ fst (dispatch Sample.env Sample.gw_sdk_down Vision
            (Sample.request "free" None) Sample.st0)
     = Throw (mkError "Multimodal analysis failed: socket hang up")
  /\ filter is_fetch
       (calls (snd (dispatch Sample.env Sample.gw_sdk_down Vision
                      (Sample.request "free" None) Sample.st0)))
     = [].
Proof.
  split; [| split; reflexivity].
  intros Hfall. specialize (Hfall _ _ eq_refl). discriminate Hfall.
Qed.

(** ** One model per dispatch outside the free tier *)

Lemma Forall_fetches_model env request ms (P : ModelRef -> Prop) :
  Forall P ms ->
  Forall (fun c => P (call_model c)) (fetches env request ms).
Proof.
  induction 1 as [| m ms Hm _ IH]; cbn; constructor; assumption.
Qed.

Lemma Forall_fetches_bound env request ms :
  Forall (fun c => call_max_tokens c = Js.spread_num (maxTokens request))
    (fetches env request ms).
Proof. induction ms as [| m ms IH]; cbn; constructor; auto. Qed.

Lemma Forall_firstn {A : Type} (P : A -> Prop) k (l : list A) :
  Forall P l -> Forall P (firstn k l).
Proof.
  intros H. revert k. induction H as [| x l Hx _ IH]; intros [| k]; cbn;
    constructor; auto.
Qed.

Lemma filter_is_fetch_fetches env request ms :
  filter is_fetch (fetches env request ms) = fetches env request ms.
Proof.
  unfold fetches.
  induction ms as [| m ms IH]; cbn; [reflexivity | now rewrite IH].
Qed.

Lemma Capability_eq_Vision cap : cap = Vision \/ cap <> Vision.
Proof. destruct cap; (now left) || (right; discriminate). Qed.

(** C4: for a tier other than [free] the candidate list of the
    secondary path is the single resolved model, the secondary path
    makes exactly one direct call, for that model, and a dispatch of any
    capability sends all its remote calls to one model, with at most one
    direct call among them. *)
Theorem paid_tier_single_candidate env gw request st :
  tier request <> "free" ->
  modelsToTry request = [getModelForTier (tier request)]
  /\ snd (chatCompletionFallback env gw request st)
     = after_fetches env request st [getModelForTier (tier request)]
  /\ forall cap,
      exists m,
        Forall (fun c => call_model c = m)
          (new_calls st (snd (dispatch env gw cap request st)))
        /\ length (filter is_fetch
                     (new_calls st (snd (dispatch env gw cap request st))))
           <= 1.
Proof.
  intros Hpaid. pose proof (modelsToTry_paid request Hpaid) as Hms.
  split; [exact Hms |]. split.
  - destruct (chatCompletionFallback_calls env gw request st)
      as (k & Hk & Hrun).
    rewrite Hrun, Hms in *. cbn in Hk.
    assert (k = 1) as -> by lia. reflexivity.
  - intros cap.
    destruct (Capability_eq_Vision cap) as [-> | Hcap].
    + exists (lookup_or visionModels (tier request)
                (getModelForTier (tier request))).
      cbn [dispatch].
      destruct (multimodalAnalysis_calls env gw request st) as [Hc | Hc].
      * rewrite (new_calls_after st _ [ ]); [split; [constructor | cbn; lia] |].
        now rewrite app_nil_r.
      * rewrite (new_calls_after st _ _ Hc).
        split; [repeat constructor | cbn; lia].
    + exists (getModelForTier (tier request)).
      rewrite (dispatch_chat_family env gw cap request Hcap).
      destruct (chatCompletion_calls env gw (prepared cap request) st)
        as (sdk & k & Hsdk & Hk & Hc).
      rewrite (new_calls_after st _ _ Hc).
      assert (Hms' : modelsToTry (prepared cap request)
                     = [getModelForTier (tier request)]).
      { rewrite <- (prepared_tier cap request).
        apply modelsToTry_paid. now rewrite prepared_tier. }
      rewrite Hms' in *. split.
      * apply Forall_app. split.
        { destruct Hsdk as [[-> _] | ->]; [constructor |].
          repeat constructor. cbn. now rewrite prepared_tier. }
        { apply (Forall_fetches_model env (prepared cap request) _
                   (fun m => m = getModelForTier (tier request))).
          apply Forall_firstn. repeat constructor. }
      * rewrite filter_app, length_app, filter_is_fetch_fetches.
        unfold fetches. rewrite length_map.
        assert (length (filter is_fetch sdk) = 0) as ->.
        { destruct Hsdk as [[-> _] | ->]; reflexivity. }
        pose proof (firstn_le_length k [getModelForTier (tier request)])
          as Hle.
        cbn [length] in Hle, Hk. cbn [Nat.add]. lia.
Qed.

Lemma paid_tier_single_candidate_witness :
  tier (Sample.request "premium" None) <> "free"
  /\ new_calls Sample.st0
       (snd (dispatch Sample.env Sample.gw_all_down Chat
               (Sample.request "premium" None) Sample.st0))
     = [SdkSend (sendParams (Sample.request "premium" None));
        Fetch (fetchInit Sample.env (Sample.request "premium" None)
                 (ModelId "openai/gpt-4o-mini"))]
  /\ modelsToTry (Sample.request "premium" None)
     = [ModelId "openai/gpt-4o-mini"].
Proof.
  assert (H : tier (Sample.request "premium" None) <> "free")
    by (cbn; discriminate).
  split; [exact H |]. split; [reflexivity |].
  exact (proj1 (paid_tier_single_candidate Sample.env Sample.gw_all_down
                  (Sample.request "premium" None) Sample.st0 H)).
Defined.

(** ** The output-token bound *)

Lemma prepared_bound cap request :
  maxTokens request = Some 0%Z ->
  cap <> Vision ->
  Js.spread_num (maxTokens (prepared cap request)) = capability_default cap.
Proof.
  intros H Hcap. destruct cap; cbn; rewrite ?H; try reflexivity.
  contradiction.
Qed.

(** The candidate loop reads the request only through the direct call
    it builds from it. *)
Lemma candidateLoop_ext env gw r1 r2 n rest :
  (forall m, fetchInit env r1 m = fetchInit env r2 m) ->
  forall i st,
    candidateLoop env gw r1 n i rest st = candidateLoop env gw r2 n i rest st.
Proof.
  intros Hinit. induction rest as [| m rest IH]; intros i st; [reflexivity |].
  cbn [candidateLoop]. unfold bind, tryCandidate, candidate_try.
  rewrite Hinit.
  destruct (try_catch _ _ st) as [[[r |] | e] st']; try reflexivity.
  apply IH.
Qed.

(** A bound of 0 and no bound give the same run. *)
Lemma dispatch_zero_bound env gw cap request st :
  maxTokens request = Some 0%Z ->
  dispatch env gw cap request st
  = dispatch env gw cap (without_bound request) st.
Proof.
  destruct request as [ms t s mt]. cbn [maxTokens]. intros ->.
  destruct cap; try reflexivity.
  cbn [dispatch]. unfold chatCompletion, try_catch, without_bound.
  cbn [messages tier stream maxTokens].
  change (chatCompletion_try env gw (mkAIRequest ms t s (Some 0%Z))
            (getModelForTier t) st)
    with (chatCompletion_try env gw (mkAIRequest ms t s None)
            (getModelForTier t) st).
  destruct (chatCompletion_try env gw (mkAIRequest ms t s None)
              (getModelForTier t) st) as [[r | e] st']; [reflexivity |].
  unfold chatCompletionFallback.
  change (modelsToTry (mkAIRequest ms t s (Some 0%Z)))
    with (modelsToTry (mkAIRequest ms t s None)).
  apply candidateLoop_ext. reflexivity.
Qed.

(** C10: a caller-supplied bound of 0 is treated as absent.  The
    dispatch of any capability runs exactly as it does on the same
    request without a bound; every remote call it makes carries the
    capability's default bound (4000 for code, 2000 for analysis, 3000
    for generation, 2000 for vision), and every remote call of a chat
    dispatch carries no bound at all; outside vision the dispatch makes
    at least one remote call. *)
Theorem zero_bound_is_absent env gw cap request st :
  maxTokens request = Some 0%Z ->
  dispatch env gw cap request st
  = dispatch env gw cap (without_bound request) st
  /\ Forall (fun c => call_max_tokens c = capability_default cap)
       (new_calls st (snd (dispatch env gw cap request st)))
  /\ (cap <> Vision ->
      new_calls st (snd (dispatch env gw cap request st)) <> []).
Proof.
  intros Hzero.
  split; [exact (dispatch_zero_bound env gw cap request st Hzero) |].
  destruct (Capability_eq_Vision cap) as [-> | Hcap].
  - split; [| intros H; contradiction]. cbn [dispatch].
    destruct (multimodalAnalysis_calls env gw request st) as [Hc | Hc].
    + rewrite (new_calls_after st _ [ ]); [constructor |].
      now rewrite app_nil_r.
    + rewrite (new_calls_after st _ _ Hc). repeat constructor.
      cbn. now rewrite Hzero.
  - rewrite (dispatch_chat_family env gw cap request Hcap).
    destruct (chatCompletion_calls env gw (prepared cap request) st)
      as (sdk & k & Hsdk & Hk & Hc).
    rewrite (new_calls_after st _ _ Hc).
    pose proof (prepared_bound cap request Hzero Hcap) as Hbound.
    split.
    + apply Forall_app. split.
      * destruct Hsdk as [[-> _] | ->]; [constructor |].
        repeat constructor. exact Hbound.
      * rewrite <- Hbound. apply Forall_fetches_bound.
    + intros _ Hnil. apply app_eq_nil in Hnil. destruct Hnil as [Hs Hf].
      destruct Hsdk as [[_ Hk1] | ->]; [| discriminate].
      pose proof (modelsToTry_nonempty (prepared cap request)) as Hne.
      destruct (modelsToTry (prepared cap request)); [contradiction |].
      destruct k; [lia | discriminate].
Qed.

Lemma zero_bound_is_absent_witness :
  maxTokens (Sample.request "free" (Some 0%Z)) = Some 0%Z
  /\ map call_max_tokens
       (new_calls Sample.st0
          (snd (dispatch Sample.env Sample.gw_sdk_down Code
                  (Sample.request "free" (Some 0%Z)) Sample.st0)))
     = [Some 4000%Z; Some 4000%Z; Some 4000%Z]
  /\ Forall (fun c => call_max_tokens c = None)
       (new_calls Sample.st0
          (snd (dispatch Sample.env Sample.gw_sdk_down Chat
                  (Sample.request "free" (Some 0%Z)) Sample.st0))).
Proof.
  split; [reflexivity |]. split; [reflexivity |].
  exact (proj1 (proj2 (zero_bound_is_absent Sample.env Sample.gw_sdk_down
                         Chat (Sample.request "free" (Some 0%Z)) Sample.st0
                         eq_refl))).
Defined.


(** ** Normalization of accepted replies *)

Lemma or_str_empty v : Js.or_str v "" = when_absent v "".
Proof.
  destruct v as [s |]; cbn; [| reflexivity].
  destruct (String.eqb_spec s ""); congruence.
Qed.

Lemma or_num_zero v : Js.or_num v 0 = when_absent v 0%Z.
Proof.
  destruct v as [n |]; cbn; [| reflexivity].
  destruct (Z.eqb_spec n 0); congruence.
Qed.

Lemma model_or_reported m requested :
  m <> "" -> model_or (Some m) requested = ModelId m.
Proof.
  intros H. cbn. destruct (String.eqb_spec m ""); [contradiction | reflexivity].
Qed.

Lemma model_or_requested reported requested :
  reported = None \/ reported = Some "" ->
  model_or reported requested = requested.
Proof. intros [-> | ->]; reflexivity. Qed.

Lemma handleResponse_accepts i n currentModel response st r st' :
  handleResponse i n currentModel response st = (Normal (Return r), st') ->
  exists data choice cs msg,
    ok response = true /\ json response = Parsed data
    /\ gw_choices data = Some (choice :: cs)
    /\ gw_message choice = Some msg
    /\ r = gw_result data msg currentModel.
Proof.
  unfold handleResponse, JSON_parse, bind, throw, ret.
  destruct (ok response); cbn [negb];
    destruct (json response) as [e | data]; try discriminate.
  - destruct (gw_choices data) as [[| choice cs] |] eqn:Hc; try discriminate.
    destruct (gw_message choice) as [msg |] eqn:Hm; [| discriminate].
    intros H. inversion H. exists data, choice, cs, msg. now repeat split.
  - destruct ((status response =? 429)%Z && (i <? n - 1)%nat); discriminate.
Qed.

Lemma chatCompletion_try_accepts env gw request st r st' :
  chatCompletion_try env gw request (getModelForTier (tier request)) st
  = (Normal r, st') ->
  exists response choice cs,
    chat_send gw (length (calls st)) (sendParams request)
    = SdkResolves response
    /\ sdk_choices response = choice :: cs
    /\ r = sdk_result response choice (getModelForTier (tier request)).
Proof.
  unfold chatCompletion_try, bind.
  pose proof (getClient_calls env st) as [Hcalls _].
  destruct (getClient env st) as [[c | e] st1]; [| discriminate].
  cbn [snd] in Hcalls. unfold client_chat_send. fold (sendParams request).
  rewrite Hcalls.
  destruct (chat_send gw (length (calls st)) (sendParams request))
    as [e | response]; [discriminate |].
  destruct (sdk_choices response) as [| choice cs] eqn:Hch; [discriminate |].
  intros H. inversion H. exists response, choice, cs. now repeat split.
Qed.

(** C6, amended: for every reply accepted by the secondary path
    ([handleResponse] returns a result) and for every reply accepted by
    the primary path of [chatCompletion], the result holds the provider's
    content, or the empty string when it is omitted; the
    provider-reported model identifier when it is present and not the
    empty string, and the requested model when it is absent or empty;
    and each token counter as reported, or zero when it is absent. *)
Theorem normalization_defaults env gw request :
  (forall i n currentModel response st r st',
      handleResponse i n currentModel response st
      = (Normal (Return r), st') ->
      exists data choice cs msg,
        json response = Parsed data
        /\ gw_choices data = Some (choice :: cs)
        /\ gw_message choice = Some msg
        /\ content r = when_absent (gw_content msg) ""
        /\ (forall m, gw_model data = Some m -> m <> "" ->
              model r = ModelId m)
        /\ (gw_model data = None \/ gw_model data = Some "" ->
              model r = currentModel)
        /\ tokensUsed r
           = when_absent (opt_field (gw_usage data) gw_total_tokens) 0%Z
        /\ promptTokens r
           = when_absent (opt_field (gw_usage data) gw_prompt_tokens) 0%Z
        /\ completionTokens r
           = when_absent (opt_field (gw_usage data) gw_completion_tokens) 0%Z)
  /\
  (forall st r st',
      chatCompletion_try env gw request (getModelForTier (tier request)) st
      = (Normal r, st') ->
      exists response choice cs,
        chat_send gw (length (calls st)) (sendParams request)
        = SdkResolves response
        /\ sdk_choices response = choice :: cs
        /\ content r = when_absent (sdk_content (sdk_message choice)) ""
        /\ (forall m, sdk_model response = Some m -> m <> "" ->
              model r = ModelId m)
        /\ (sdk_model response = None \/ sdk_model response = Some "" ->
              model r = getModelForTier (tier request))
        /\ tokensUsed r
           = when_absent (opt_field (sdk_usage response) sdk_totalTokens) 0%Z
        /\ promptTokens r
           = when_absent (opt_field (sdk_usage response) sdk_promptTokens) 0%Z
        /\ completionTokens r
           = when_absent (opt_field (sdk_usage response) sdk_completionTokens)
               0%Z).
Proof.
  split.
  - intros i n currentModel response st r st' Hrun.
    destruct (handleResponse_accepts _ _ _ _ _ _ _ Hrun)
      as (data & choice & cs & msg & _ & Hj & Hc & Hmsg & ->).
    exists data, choice, cs, msg. cbn [gw_result content model tokensUsed
                                   promptTokens completionTokens].
    rewrite or_str_empty, !or_num_zero.
    repeat split; try assumption.
    + intros m -> Hm. now apply model_or_reported.
    + apply model_or_requested.
  - intros st r st' Hrun.
    destruct (chatCompletion_try_accepts _ _ _ _ _ _ Hrun)
      as (response & choice & cs & Hsend & Hc & ->).
    exists response, choice, cs. cbn [sdk_result content model tokensUsed
                                       promptTokens completionTokens].
    rewrite or_str_empty, !or_num_zero.
    repeat split; try assumption.
    + intros m -> Hm. now apply model_or_reported.
    + apply model_or_requested.
Qed.

Lemma normalization_defaults_witness :
  handleResponse 0 1 (ModelId "openai/gpt-4o-mini")
    (mkHttpResponse 200 "{}" (Parsed (Sample.completion None None)))
    Sample.st0
  = (Normal (Return (mkAIResponse "" (ModelId "openai/gpt-4o-mini") 0 0 0)),
     Sample.st0)
  /\ exists data choice cs msg,
      Parsed (Sample.completion None None) = Parsed data
      /\ gw_choices data = Some (choice :: cs)
      /\ gw_message choice = Some msg
      /\ content (mkAIResponse "" (ModelId "openai/gpt-4o-mini") 0 0 0)
         = when_absent (gw_content msg) "".
Proof.
  split; [reflexivity |].
  destruct (proj1 (normalization_defaults Sample.env Sample.gw_all_down
                     (Sample.request "premium" None))
              0 1 (ModelId "openai/gpt-4o-mini")
              (mkHttpResponse 200 "{}" (Parsed (Sample.completion None None)))
              Sample.st0 _ _ eq_refl)
    as (data & choice & cs & msg & Hj & Hc & Hm & Hcontent & _).
  exists data, choice, cs, msg. repeat split; assumption.
Defined.

(** C6 as stated fails on a present but empty identifier: the reply
    reports the empty string as its model, and the result carries the
    requested candidate instead. *)
Lemma empty_reported_model_is_replaced :
  exists r,
    handleResponse 0 1 (ModelId "openai/gpt-4o-mini")
      (mkHttpResponse 200 "{}"
         (Parsed (Sample.completion (Some "") (Some "hi"))))
      Sample.st0
    = (Normal (Return r), Sample.st0)
    /\ gw_model (Sample.completion (Some "") (Some "hi")) = Some ""
    /\ model r = ModelId "openai/gpt-4o-mini"
    /\ model r <> ModelId "".
Proof.
  eexists. split; [reflexivity |]. repeat split. discriminate.
Qed.

(** The vision path defaults the reported model to the tier's model,
    not to the vision model it requested: for the free tier a reply
    without a model identifier is reported under the Mistral model
    although Gemini was called. *)
Lemma multimodalAnalysis_reports_tier_model :
  new_calls Sample.st0
    (snd (multimodalAnalysis Sample.env
            (Sample.gw_up (mkChunkStream [] Completes))
            (Sample.request "free" None) Sample.st0))
  = [SdkSend (visionParams (Sample.request "free" None))]
  /\ send_model (visionParams (Sample.request "free" None))
     = ModelId "google/gemini-2.0-flash-exp:free"
  /\ fst (multimodalAnalysis Sample.env
            (Sample.gw_up (mkChunkStream [] Completes))
            (Sample.request "free" None) Sample.st0)
     = Normal (mkAIResponse "" (ModelId "mistralai/mistral-7b-instruct:free")
                 0 0 0).
Proof. repeat split. Qed.


(** ** Streaming *)



Lemma delta_frame_not_done d : delta_frame d <> done_frame.
Proof. unfold delta_frame, done_frame. cbn. discriminate. Qed.

Lemma done_not_in_delta_frames cs : ~ In done_frame (delta_frames cs).
Proof.
  induction cs as [| chunk cs IH]; cbn; [tauto |].
  destruct (Js.truthy_str (chunk_delta chunk)); [| exact IH].
  cbn. intros [H | H]; [now apply delta_frame_not_done in H | now apply IH].
Qed.

Lemma for_await_relay cs st :
  for_await cs Completes relay_chunk st
  = (Normal tt, after_res st (map Write (delta_frames cs))).
Proof.
  revert st. induction cs as [| chunk cs IH]; intros st.
  - cbn. unfold ret, after_res. destruct st; cbn. now rewrite app_nil_r.
  - cbn [for_await delta_frames]. unfold bind, relay_chunk.
    destruct (Js.truthy_str (chunk_delta chunk)).
    + unfold res_op. rewrite IH. unfold after_res. cbn.
      now rewrite <- app_assoc.
    + unfold ret. apply IH.
Qed.

Lemma writes_app a b : writes (a ++ b) = (writes a ++ writes b)%list.
Proof.
  induction a as [| o a IH]; cbn; [reflexivity |].
  destruct o; cbn; now rewrite ?IH.
Qed.

Lemma writes_map_Write fs : writes (map Write fs) = fs.
Proof. induction fs as [| f fs IH]; cbn; [reflexivity | now rewrite IH]. Qed.

Lemma new_res_after st st' ops :
  res st' = (res st ++ ops)%list -> new_res st st' = ops.
Proof.
  unfold new_res. intros ->.
  now rewrite skipn_app, skipn_all, Nat.sub_diag.
Qed.

Lemma streamChatCompletion_opens env gw request st s :
  client_available env st = true ->
  chat_send_stream gw (length (calls st)) (streamParams request)
  = StreamResolves s ->
  exists c,
    streamChatCompletion env gw request st
    = (Normal s, mkState (Some c) (calls st ++ [SdkSend (streamParams request)])
                   (res st)).
Proof.
  intros Hc Hs.
  unfold streamChatCompletion, try_catch, bind, getClient,
    client_chat_send_stream.
  unfold client_available in Hc. fold (streamParams request).
  destruct (client st) as [c |] eqn:Hcl.
  - exists c. rewrite Hs. cbn. now rewrite Hcl.
  - rewrite Hc. cbn [negb]. eexists. cbn [calls client res]. rewrite Hs.
    reflexivity.
Qed.

Lemma skipn_res_app (st : State) ops :
  skipn (length (res st)) (res st ++ ops)%list = ops.
Proof. now rewrite skipn_app, skipn_all, Nat.sub_diag. Qed.

Lemma after_res_nil st : after_res st [] = st.
Proof. destruct st. unfold after_res. cbn. now rewrite app_nil_r. Qed.

Lemma after_res_app st a b :
  after_res (after_res st a) b = after_res st (a ++ b).
Proof. unfold after_res. cbn. now rewrite <- app_assoc. Qed.

Lemma headersSent_app a b :
  headersSent (a ++ b) = headersSent a || headersSent b.
Proof. apply existsb_app. Qed.

Lemma headersSent_frames fs :
  headersSent (map Write fs) = negb (Nat.eqb (length fs) 0).
Proof. destruct fs; reflexivity. Qed.

(** [res.setHeader] and [res.json] after the calls [ops] on the response
    of a handler entered in [st]. *)
Lemma res_set_run st ops s o :
  res s = (res st ++ ops)%list ->
  res_set (length (res st)) o s
  = (if headersSent ops then Throw ERR_HTTP_HEADERS_SENT else Normal tt,
     after_res s [o]).
Proof.
  intros Hs.
  assert (H : skipn (length (res st)) (res s) = ops)
    by (rewrite Hs; apply skipn_res_app).
  unfold res_set. rewrite H. destruct (headersSent ops); reflexivity.
Qed.

Lemma streamChatCompletion_res env gw request st :
  res (snd (streamChatCompletion env gw request st)) = res st.
Proof.
  unfold streamChatCompletion, try_catch, bind, throw.
  pose proof (getClient_calls env st) as [_ Hres].
  destruct (getClient env st) as [[c | e] st1]; cbn [snd] in Hres;
    [| exact Hres].
  unfold client_chat_send_stream.
  destruct (chat_send_stream gw _ _) as [e | s]; exact Hres.
Qed.

Lemma for_await_relay_faults cs e st :
  for_await cs (Faults e) relay_chunk st
  = (Throw e, after_res st (map Write (delta_frames cs))).
Proof.
  revert st. induction cs as [| chunk cs IH]; intros st.
  - cbn. unfold throw. now rewrite after_res_nil.
  - cbn [for_await delta_frames]. unfold bind, relay_chunk.
    destruct (Js.truthy_str (chunk_delta chunk)).
    + unfold res_op. rewrite IH. unfold after_res. cbn.
      now rewrite <- app_assoc.
    + unfold ret. apply IH.
Qed.

Lemma res_set_after st ops o :
  res_set (length (res st)) o (after_res st ops)
  = (if headersSent ops then Throw ERR_HTTP_HEADERS_SENT else Normal tt,
     after_res st (ops ++ [o])).
Proof.
  rewrite (res_set_run st ops) by reflexivity. now rewrite after_res_app.
Qed.

Lemma res_set_entry st o :
  res_set (length (res st)) o st = (Normal tt, after_res st [o]).
Proof. rewrite (res_set_run st []) by (now rewrite app_nil_r). reflexivity. Qed.

(** The three event-stream headers are set on the fresh response. *)
Lemma sse_headers_set st (k : M unit) :
  (res_set (length (res st)) (SetHeader "Content-Type" "text/event-stream") ;;;
   res_set (length (res st)) (SetHeader "Cache-Control" "no-cache") ;;;
   res_set (length (res st)) (SetHeader "Connection" "keep-alive") ;;;
   k) st
  = k (after_res st sse_headers).
Proof.
  unfold bind. rewrite res_set_entry, res_set_after. cbn [headersSent existsb orb].
  rewrite res_set_after. reflexivity.
Qed.

Section ChatRun.
Variable env : Env.
Variable gw : Gateway.

(** The chat handler on a streaming request, from the point where the
    stream is asked for. *)
Lemma chat_handler_stream body msgs st :
  chat_messages body = Some msgs ->
  chat_stream body = Some true ->
  chat_handler env gw body st
  = match
      (streamResponse <- streamChatCompletion env gw
         (mkAIRequest msgs (chat_tier_or_free body) (Some true) None) ;;
       for_await (chunks streamResponse) (ending streamResponse)
         relay_chunk ;;;
       res_op (Write done_frame) ;;;
       res_op EndResponse) (after_res st sse_headers)
    with
    | (Normal a, st') => (Normal a, st')
    | (Throw error, st') =>
        (res_op (Status 500) ;;;
         res_set (length (res st))
           (Json (ErrorJson "Chat completion failed"
                    (Some (message error))))) st'
    end.
Proof.
  intros Hm Hs. unfold chat_handler. rewrite Hm, Hs.
  fold (chat_tier_or_free body).
  unfold try_catch. rewrite sse_headers_set. reflexivity.
Qed.

(** How a streaming chat request ends. *)
Lemma chat_handler_stream_run body msgs st :
  chat_messages body = Some msgs ->
  chat_stream body = Some true ->
  chat_handler env gw body st
  = match
      streamChatCompletion env gw
        (mkAIRequest msgs (chat_tier_or_free body) (Some true) None)
        (after_res st sse_headers)
    with
    | (Throw e, st1) =>
        (Normal tt,
         after_res st1
           [Status 500;
            Json (ErrorJson "Chat completion failed" (Some (message e)))])
    | (Normal s, st1) =>
        match ending s with
        | Completes =>
            (Normal tt,
             after_res st1
               (map Write (delta_frames (chunks s))
                ++ [Write done_frame; EndResponse]))
        | Faults e =>
            (if Nat.eqb (length (delta_frames (chunks s))) 0 then Normal tt
             else Throw ERR_HTTP_HEADERS_SENT,
             after_res st1
               (map Write (delta_frames (chunks s))
                ++ [Status 500;
                    Json (ErrorJson "Chat completion failed"
                            (Some (message e)))]))
        end
    end.
Proof.
  intros Hm Hs.
  rewrite (chat_handler_stream body msgs st Hm Hs).
  unfold bind at 1.
  pose proof (streamChatCompletion_res env gw
                (mkAIRequest msgs (chat_tier_or_free body) (Some true) None)
                (after_res st sse_headers)) as Hres.
  destruct (streamChatCompletion env gw
              (mkAIRequest msgs (chat_tier_or_free body) (Some true) None)
              (after_res st sse_headers)) as [[s | e] st1];
    cbn [fst snd after_res res] in Hres.
  - destruct (ending s) as [| e] eqn:Hend.
    + unfold bind. rewrite for_await_relay. unfold res_op, after_res.
      cbn [fst snd res client calls]. rewrite <- !app_assoc. reflexivity.
    + unfold bind. rewrite for_await_relay_faults.
      unfold res_op at 1. cbn [after_res res client calls].
      rewrite (res_set_run st
                 (sse_headers ++ map Write (delta_frames (chunks s))
                  ++ [Status 500])).
      2:{ cbn [res]. rewrite Hres, <- !app_assoc. reflexivity. }
      rewrite !headersSent_app, headersSent_frames.
      cbn [headersSent sse_headers existsb orb]. rewrite orb_false_r.
      unfold after_res. cbn [res client calls]. rewrite <- !app_assoc.
      destruct (Nat.eqb (length (delta_frames (chunks s))) 0); reflexivity.
  - unfold bind. unfold res_op at 1. cbn [res client calls].
    rewrite (res_set_run st (sse_headers ++ [Status 500])).
    2:{ cbn [res]. rewrite Hres, <- !app_assoc. reflexivity. }
    cbn [headersSent sse_headers existsb orb app].
    unfold after_res. cbn [res client calls]. rewrite <- !app_assoc.
    reflexivity.
Qed.

End ChatRun.

(** C7, amended: a streaming chat request with a message list whose
    provider stream opens and completes without a fault sets the three
    event-stream headers, writes one content-delta frame per chunk with a
    non-empty delta, in order (possibly none), then the sentinel frame
    [data: [DONE]] and ends the response; the sentinel occurs exactly
    once among the frames written. *)
Theorem clean_stream_ends_with_one_sentinel env gw body msgs s st :
  chat_messages body = Some msgs ->
  chat_stream body = Some true ->
  client_available env st = true ->
  chat_send_stream gw (length (calls st))
    (streamParams (mkAIRequest msgs (chat_tier_or_free body) (Some true) None))
  = StreamResolves s ->
  ending s = Completes ->
  new_res st (snd (chat_handler env gw body st))
  = (sse_headers ++ map Write (delta_frames (chunks s))
     ++ [Write done_frame; EndResponse])%list
  /\ writes (new_res st (snd (chat_handler env gw body st)))
     = (delta_frames (chunks s) ++ [done_frame])%list
  /\ count_occ string_dec
       (writes (new_res st (snd (chat_handler env gw body st)))) done_frame
     = 1.
Proof.
  intros Hm Hstream Hc Hs Hend.
  assert (Hres : new_res st (snd (chat_handler env gw body st))
                 = (sse_headers ++ map Write (delta_frames (chunks s))
                    ++ [Write done_frame; EndResponse])%list).
  { apply new_res_after.
    rewrite (chat_handler_stream_run env gw body msgs st Hm Hstream).
    destruct (streamChatCompletion_opens env gw
                (mkAIRequest msgs (chat_tier_or_free body) (Some true) None)
                (after_res st sse_headers) s Hc Hs) as (c & Hopen).
    rewrite Hopen, Hend. cbn [snd after_res res].
    now rewrite <- !app_assoc. }
  split; [exact Hres |].
  assert (Hw : writes (new_res st (snd (chat_handler env gw body st)))
               = (delta_frames (chunks s) ++ [done_frame])%list).
  { rewrite Hres, !writes_app, writes_map_Write. reflexivity. }
  split; [exact Hw |].
  rewrite Hw, count_occ_app.
  rewrite (proj1 (count_occ_not_In string_dec _ _)
             (done_not_in_delta_frames (chunks s))).
  cbn. destruct (string_dec done_frame done_frame); [reflexivity | contradiction].
Qed.

Lemma clean_stream_ends_with_one_sentinel_witness :
  writes (new_res Sample.st0
            (snd (chat_handler Sample.env
                    (Sample.gw_up (mkChunkStream [] Completes))
                    Sample.stream_body Sample.st0)))
  = [done_frame]
  /\ writes (new_res Sample.st0
               (snd (chat_handler Sample.env
                       (Sample.gw_up
                          (mkChunkStream
                             [Sample.chunk (Some "Hel"); Sample.chunk None;
                              Sample.chunk (Some "lo")] Completes))
                       Sample.stream_body Sample.st0)))
     = [delta_frame "Hel"; delta_frame "lo"; done_frame].
Proof.
  split.
  - exact (proj1 (proj2 (clean_stream_ends_with_one_sentinel Sample.env
                           (Sample.gw_up (mkChunkStream [] Completes))
                           Sample.stream_body [Sample.user "hello"]
                           (mkChunkStream [] Completes) Sample.st0
                           eq_refl eq_refl eq_refl eq_refl eq_refl))).
  - exact (proj1 (proj2 (clean_stream_ends_with_one_sentinel Sample.env
                           (Sample.gw_up
                              (mkChunkStream
                                 [Sample.chunk (Some "Hel"); Sample.chunk None;
                                  Sample.chunk (Some "lo")] Completes))
                           Sample.stream_body [Sample.user "hello"]
                           (mkChunkStream
                              [Sample.chunk (Some "Hel"); Sample.chunk None;
                               Sample.chunk (Some "lo")] Completes)
                           Sample.st0
                           eq_refl eq_refl eq_refl eq_refl eq_refl))).
Defined.

(** C7 as stated fails when the provider stream fails: if the stream
    cannot be opened no frame at all is written, and if it faults after
    a delta the delta frame is followed by the calls for the 500 error
    reply; in both runs no sentinel frame is written. *)
Lemma failed_stream_has_no_sentinel :
  writes (res (snd (chat_handler Sample.env Sample.gw_sdk_down Sample.stream_body
                      Sample.st0)))
  = []
  /\ res (snd (chat_handler Sample.env
                 (Sample.gw_up
                    (mkChunkStream [Sample.chunk (Some "Hel")]
                       (Faults (mkError "aborted"))))
                 Sample.stream_body Sample.st0))
     = (sse_headers
        ++ [Write (delta_frame "Hel"); Status 500;
            Json (ErrorJson "Chat completion failed" (Some "aborted"))])%list
  /\ ~ In done_frame
       (writes (res (snd (chat_handler Sample.env
                            (Sample.gw_up
                               (mkChunkStream [Sample.chunk (Some "Hel")]
                                  (Faults (mkError "aborted"))))
                            Sample.stream_body Sample.st0)))).
Proof.
  split; [reflexivity |]. split; [reflexivity |].
  cbn. intros [H | []]. discriminate H.
Qed.

(** ** The vision handler *)

(** C8: a vision request whose [imageUrl] and [imageBase64] are both
    absent (or empty) is answered with status 400 and an error body,
    whether or not a prompt is present; no remote call is made and no
    client is built. *)
Theorem vision_requires_an_image env gw body st :
  Js.truthy_str (vision_imageUrl body) = false ->
  Js.truthy_str (vision_imageBase64 body) = false ->
  exists error,
    vision_handler env gw body st
    = (Normal tt,
       mkState (client st) (calls st)
         (res st ++ [Status 400; Json (ErrorJson error None)])).
Proof.
  intros Hurl Hb64. unfold vision_handler, try_catch.
  rewrite Hurl, Hb64. cbn [negb andb].
  destruct (Js.truthy_str (vision_prompt body)); cbn [negb];
    eexists; unfold bind, res_op; cbn [client calls res];
    rewrite <- app_assoc; reflexivity.
Qed.

Lemma vision_requires_an_image_witness :
  Js.truthy_str (vision_imageUrl (Sample.vision_body None None)) = false
  /\ Js.truthy_str (vision_imageBase64 (Sample.vision_body None None)) = false
  /\ exists error,
      vision_handler Sample.env Sample.gw_all_down
        (Sample.vision_body None None) Sample.st0
      = (Normal tt,
         mkState None [] [Status 400; Json (ErrorJson error None)]).
Proof.
  split; [reflexivity |]. split; [reflexivity |].
  exact (vision_requires_an_image Sample.env Sample.gw_all_down
           (Sample.vision_body None None) Sample.st0 eq_refl eq_refl).
Defined.



(** * Further properties of the service, the routes and the client *)

(** ** The lazily built client and the missing credential *)

(** X1: a client that [getClient] returns is kept: the call leaves the
    remote calls and the response untouched, a client built on this call
    holds the non-empty key of the environment and the 60 s timeout, and
    every later [getClient] returns the same client whatever the
    environment then says. *)
Theorem getClient_is_cached env st c st' :
  getClient env st = (Normal c, st') ->
  calls st' = calls st
  /\ res st' = res st
  /\ client st' = Some c
  /\ (client st = None ->
      exists key,
        OPENROUTER_API_KEY env = Some key /\ key <> ""
        /\ c = mkClient key 60000)
  /\ forall env', getClient env' st' = (Normal c, st').
Proof.
  unfold getClient. destruct (client st) as [c0 |] eqn:Hc.
  - intros H. injection H as <- <-. repeat split; try assumption.
    + discriminate.
    + intros env'. now rewrite Hc.
  - destruct (OPENROUTER_API_KEY env) as [key |]; cbn; [| discriminate].
    destruct (String.eqb_spec key ""); cbn; [discriminate |].
    intros H. injection H as <- <-. cbn. repeat split.
    intros _. exists key. repeat split. assumption.
Qed.

Lemma getClient_is_cached_witness :
  getClient Sample.env Sample.st0
  = (Normal (mkClient "sk-or-test" 60000),
     mkState (Some (mkClient "sk-or-test" 60000)) [] [])
  /\ getClient (mkEnv None None)
       (mkState (Some (mkClient "sk-or-test" 60000)) [] [])
     = (Normal (mkClient "sk-or-test" 60000),
        mkState (Some (mkClient "sk-or-test" 60000)) [] []).
Proof.
  split; [reflexivity |].
  exact (proj2 (proj2 (proj2 (proj2
           (getClient_is_cached Sample.env Sample.st0 _ _ eq_refl))))
           (mkEnv None None)).
Defined.

Lemma getClient_without_key env st :
  client st = None ->
  Js.truthy_str (OPENROUTER_API_KEY env) = false ->
  getClient env st
  = (Throw (mkError
       "OPENROUTER_API_KEY is required. Please set it in your .env file."),
     st).
Proof. intros Hc Hk. unfold getClient. now rewrite Hc, Hk. Qed.

(** X2: without a cached client and without a (non-empty) API key, the
    vision dispatch and the streaming dispatch fail at once with the
    configuration error under their own prefix, leaving the state as it
    was: no remote call is made. *)
Theorem missing_key_fails_fast_for_vision_and_stream env gw request st :
  client st = None ->
  Js.truthy_str (OPENROUTER_API_KEY env) = false ->
  multimodalAnalysis env gw request st
  = (Throw (mkError
       "Multimodal analysis failed: OPENROUTER_API_KEY is required. Please set it in your .env file."),
     st)
  /\ streamChatCompletion env gw request st
     = (Throw (mkError
          "AI streaming failed: OPENROUTER_API_KEY is required. Please set it in your .env file."),
        st).
Proof.
  intros Hc Hk. split.
  - unfold multimodalAnalysis, try_catch, multimodalAnalysis_try, bind.
    now rewrite (getClient_without_key env st Hc Hk).
  - unfold streamChatCompletion, try_catch, bind.
    now rewrite (getClient_without_key env st Hc Hk).
Qed.

Lemma missing_key_fails_fast_for_vision_and_stream_witness :
  fst (multimodalAnalysis (mkEnv None None) Sample.gw_all_down
         (Sample.request "enterprise" None) Sample.st0)
  = Throw (mkError
      "Multimodal analysis failed: OPENROUTER_API_KEY is required. Please set it in your .env file.").
Proof.
  now rewrite (proj1 (missing_key_fails_fast_for_vision_and_stream
                        (mkEnv None None) Sample.gw_all_down
                        (Sample.request "enterprise" None) Sample.st0
                        eq_refl eq_refl)).
Defined.

Lemma Forall_fetches_authorization env request ms :
  Forall (fun c => call_authorization c
                   = Some ("Bearer "
                           ++ match OPENROUTER_API_KEY env with
                              | Some k => k
                              | None => "undefined"
                              end))
    (fetches env request ms).
Proof. induction ms as [| m ms IH]; cbn; constructor; auto. Qed.

(** X3: without a cached client and without an API key, chat, code,
    analysis and generation do not report the configuration error: the
    dispatch is the run of the secondary path, which makes at least one
    direct call, each with the credential header [Bearer undefined]. *)
Theorem missing_key_chat_goes_direct env gw cap request st :
  cap <> Vision ->
  client st = None ->
  OPENROUTER_API_KEY env = None ->
  dispatch env gw cap request st
  = chatCompletionFallback env gw (prepared cap request) st
  /\ new_calls st (snd (dispatch env gw cap request st)) <> []
  /\ Forall (fun c => call_authorization c = Some "Bearer undefined")
       (new_calls st (snd (dispatch env gw cap request st))).
Proof.
  intros Hcap Hc Hk.
  assert (Hrun : dispatch env gw cap request st
                 = chatCompletionFallback env gw (prepared cap request) st).
  { rewrite (dispatch_chat_family env gw cap request Hcap).
    unfold chatCompletion, try_catch, chatCompletion_try, bind.
    rewrite (getClient_without_key env st Hc); [reflexivity |].
    now rewrite Hk. }
  split; [exact Hrun |]. rewrite Hrun.
  destruct (chatCompletionFallback_calls env gw (prepared cap request) st)
    as (k & Hk1 & Hst).
  rewrite Hst.
  rewrite (new_calls_after st
             (after_fetches env (prepared cap request) st
                (firstn k (modelsToTry (prepared cap request))))
             _ eq_refl).
  split.
  - pose proof (modelsToTry_nonempty (prepared cap request)) as Hne.
    destruct (modelsToTry (prepared cap request)); [contradiction |].
    destruct k; [lia | discriminate].
  - pose proof (Forall_fetches_authorization env (prepared cap request)
                  (firstn k (modelsToTry (prepared cap request)))) as H.
    now rewrite Hk in H.
Qed.

Lemma missing_key_chat_goes_direct_witness :
  map call_authorization
    (new_calls Sample.st0
       (snd (dispatch (mkEnv None None) Sample.gw_all_down Chat
               (Sample.request "premium" None) Sample.st0)))
  = [Some "Bearer undefined"]
  /\ Forall (fun c => call_authorization c = Some "Bearer undefined")
       (new_calls Sample.st0
          (snd (dispatch (mkEnv None None) Sample.gw_all_down Chat
                  (Sample.request "premium" None) Sample.st0))).
Proof.
  split; [reflexivity |].
  refine (proj2 (proj2 (missing_key_chat_goes_direct (mkEnv None None)
                          Sample.gw_all_down Chat
                          (Sample.request "premium" None) Sample.st0
                          _ eq_refl eq_refl))).
  discriminate.
Defined.

(** ** What a dispatch calls and how it fails *)

Lemma prefix_append (p s : string) : String.prefix p (p ++ s) = true.
Proof.
  induction p as [| a p IH]; cbn; [now destruct s |].
  destruct (ascii_dec a a); [exact IH | contradiction].
Qed.

(** X4: [streamChatCompletion] makes at most one remote call, the SDK
    call with [stream: true] for the tier's model, never a direct call;
    it leaves the response untouched; and every error it throws starts
    with [AI streaming failed: ]. *)
Theorem streamChatCompletion_single_attempt env gw request st :
  (new_calls st (snd (streamChatCompletion env gw request st)) = []
   \/ new_calls st (snd (streamChatCompletion env gw request st))
      = [SdkSend (streamParams request)])
  /\ res (snd (streamChatCompletion env gw request st)) = res st
  /\ forall e,
      fst (streamChatCompletion env gw request st) = Throw e ->
      String.prefix "AI streaming failed: " (message e) = true.
Proof.
  unfold streamChatCompletion, try_catch, bind, throw.
  pose proof (getClient_calls env st) as [Hcalls Hres].
  destruct (getClient env st) as [[c | e0] st1]; cbn [snd] in Hcalls, Hres.
  - unfold client_chat_send_stream. fold (streamParams request).
    destruct (chat_send_stream gw (length (calls st1)) (streamParams request))
      as [e0 | s]; cbn [fst snd calls res]; rewrite Hcalls, Hres.
    + split; [right; now apply new_calls_after |]. split; [reflexivity |].
      intros e H. injection H as <-.
      exact (prefix_append "AI streaming failed: " (message e0)).
    + split; [right; now apply new_calls_after |]. split; [reflexivity |].
      intros e H. discriminate.
  - cbn [fst snd]. split.
    + left. apply new_calls_after. now rewrite app_nil_r.
    + split; [exact Hres |]. intros e H. injection H as <-.
      exact (prefix_append "AI streaming failed: " (message e0)).
Qed.

Lemma chatCompletionFallback_throws_prefixed env gw request st e st' :
  chatCompletionFallback env gw request st = (Throw e, st') ->
  String.prefix "AI request failed: " (message e) = true.
Proof.
  unfold chatCompletionFallback.
  destruct (candidateLoop_run env gw request (modelsToTry request) 0
              (length (modelsToTry request)) st eq_refl)
    as [[_ Hrun] | [Hsucc | Hfail]].
  - rewrite Hrun. intros H. injection H as <- _. reflexivity.
  - destruct Hsucc as (k & r & data & choice & cs & msg & _ & _ & _ & _ & _
                       & _ & _ & Hrun).
    rewrite Hrun. discriminate.
  - destruct Hfail as (_ & _ & e0 & _ & Hrun).
    rewrite Hrun. intros H. injection H as <- _.
    exact (prefix_append "AI request failed: " (message e0)).
Qed.

(** X5: every error a dispatch throws starts with the prefix of its path:
    [Multimodal analysis failed: ] for vision and [AI request failed: ]
    for chat, code, analysis and generation, whose SDK errors never
    surface. *)
Theorem dispatch_failure_prefix env gw cap request st e st' :
  dispatch env gw cap request st = (Throw e, st') ->
  String.prefix (failure_prefix cap) (message e) = true.
Proof.
  destruct (Capability_eq_Vision cap) as [-> | Hcap].
  - cbn [dispatch failure_prefix].
    unfold multimodalAnalysis, try_catch, throw.
    destruct (multimodalAnalysis_try env gw request
                (getModelForTier (tier request)) st) as [[r | e0] st1];
      [discriminate |].
    intros H. injection H as <- _.
    exact (prefix_append "Multimodal analysis failed: " (message e0)).
  - rewrite (dispatch_chat_family env gw cap request Hcap).
    replace (failure_prefix cap) with "AI request failed: "
      by (destruct cap; try reflexivity; contradiction).
    unfold chatCompletion, try_catch.
    destruct (chatCompletion_try env gw (prepared cap request)
                (getModelForTier (tier (prepared cap request))) st)
      as [[r | e0] st1]; [discriminate |].
    apply chatCompletionFallback_throws_prefixed.
Qed.

Lemma dispatch_failure_prefix_witness :
  dispatch Sample.env Sample.gw_all_down Analyze
    (Sample.request "premium" None) Sample.st0
  = (Throw (mkError "AI request failed: OpenRouter API error (503): {}"),
     snd (dispatch Sample.env Sample.gw_all_down Analyze
            (Sample.request "premium" None) Sample.st0))
  /\ String.prefix (failure_prefix Analyze)
       "AI request failed: OpenRouter API error (503): {}" = true.
Proof.
  split; [reflexivity |].
  exact (dispatch_failure_prefix Sample.env Sample.gw_all_down Analyze
           (Sample.request "premium" None) Sample.st0 _ _ eq_refl).
Defined.

Lemma getClient_available env st :
  client_available env st = true ->
  exists c,
    getClient env st = (Normal c, mkState (Some c) (calls st) (res st)).
Proof.
  unfold client_available, getClient.
  destruct st as [[c |] cs rs]; cbn.
  - intros _. now exists c.
  - intros ->. cbn. eexists. reflexivity.
Qed.

(** X6: when a client is available and the SDK call is answered with at
    least one choice, chat, code, analysis and generation return the
    normalized SDK reply and the SDK call is the only remote call: the
    secondary path is not entered. *)
Theorem primary_success_makes_one_call env gw cap request st response
  choice cs :
  cap <> Vision ->
  client_available env st = true ->
  chat_send gw (length (calls st)) (sendParams (prepared cap request))
  = SdkResolves response ->
  sdk_choices response = choice :: cs ->
  fst (dispatch env gw cap request st)
  = Normal (sdk_result response choice (getModelForTier (tier request)))
  /\ new_calls st (snd (dispatch env gw cap request st))
     = [SdkSend (sendParams (prepared cap request))].
Proof.
  intros Hcap Hav Hsend Hch.
  rewrite (dispatch_chat_family env gw cap request Hcap).
  destruct (getClient_available env st Hav) as (c & Hget).
  unfold chatCompletion, try_catch, chatCompletion_try, bind.
  rewrite Hget. unfold client_chat_send. cbn [calls client res].
  fold (sendParams (prepared cap request)).
  rewrite Hsend, Hch. cbn [fst snd]. rewrite prepared_tier.
  split; [reflexivity |]. now apply new_calls_after.
Qed.

Lemma primary_success_makes_one_call_witness :
  new_calls Sample.st0
    (snd (dispatch Sample.env (Sample.gw_up (mkChunkStream [] Completes))
            Generate (Sample.request "free" None) Sample.st0))
  = [SdkSend (sendParams (prepared Generate (Sample.request "free" None)))].
Proof.
  refine (proj2 (primary_success_makes_one_call Sample.env
                   (Sample.gw_up (mkChunkStream [] Completes)) Generate
                   (Sample.request "free" None) Sample.st0
                   (mkSdkResponse [mkSdkChoice (mkSdkMessage None)] None None)
                   (mkSdkChoice (mkSdkMessage None)) []
                   _ eq_refl eq_refl eq_refl)).
  discriminate.
Defined.

Lemma length_firstn_le {A : Type} k (l : list A) :
  length (firstn k l) <= length l.
Proof. rewrite length_firstn. lia. Qed.

Lemma modelsToTry_length request :
  length (modelsToTry request)
  = if tier request =? "free" then 4 else 1.
Proof. unfold modelsToTry. destruct (tier request =? "free"); reflexivity. Qed.

(** X7: a dispatch makes at most one remote call for vision, at most
    five for the free tier (one SDK call and the four fallback
    candidates) and at most two for any other tier. *)
Theorem dispatch_call_bound env gw cap request st :
  length (new_calls st (snd (dispatch env gw cap request st)))
  <= match cap with
     | Vision => 1
     | _ => if tier request =? "free" then 5 else 2
     end.
Proof.
  destruct (Capability_eq_Vision cap) as [-> | Hcap].
  - cbn [dispatch].
    destruct (multimodalAnalysis_calls env gw request st) as [Hc | Hc].
    + rewrite (new_calls_after st _ [ ]); [cbn; lia |]. now rewrite app_nil_r.
    + rewrite (new_calls_after st _ _ Hc). cbn; lia.
  - rewrite (dispatch_chat_family env gw cap request Hcap).
    destruct (chatCompletion_calls env gw (prepared cap request) st)
      as (sdk & k & Hsdk & Hk & Hc).
    rewrite (new_calls_after st _ _ Hc).
    rewrite length_app, length_fetches.
    pose proof (length_firstn_le k (modelsToTry (prepared cap request))) as Hf.
    rewrite modelsToTry_length, prepared_tier in Hf.
    assert (Hs : length sdk <= 1)
      by (destruct Hsdk as [[-> _] | ->]; cbn; lia).
    destruct cap; try contradiction;
      destruct (tier request =? "free"); lia.
Qed.

Lemma Forall_fetches_messages env request ms :
  Forall (fun c => call_messages c = messages request)
    (fetches env request ms).
Proof. induction ms as [| m ms IH]; cbn; constructor; auto. Qed.

(** X8: every remote call of a dispatch carries the caller's messages
    unchanged and in order, preceded by the capability's persona system
    message for code, analysis and generation and by nothing for chat
    and vision. *)
Theorem dispatch_messages env gw cap request st :
  Forall
    (fun c =>
       call_messages c
       = match cap with
         | Chat | Vision => messages request
         | Code => codeGeneration_systemMessage :: messages request
         | Analyze => textAnalysis_systemMessage :: messages request
         | Generate => contentGeneration_systemMessage :: messages request
         end)
    (new_calls st (snd (dispatch env gw cap request st))).
Proof.
  destruct (Capability_eq_Vision cap) as [-> | Hcap].
  - cbn [dispatch].
    destruct (multimodalAnalysis_calls env gw request st) as [Hc | Hc].
    + rewrite (new_calls_after st _ [ ]); [constructor |].
      now rewrite app_nil_r.
    + rewrite (new_calls_after st _ _ Hc). repeat constructor.
  - rewrite (dispatch_chat_family env gw cap request Hcap).
    destruct (chatCompletion_calls env gw (prepared cap request) st)
      as (sdk & k & Hsdk & Hk & Hc).
    rewrite (new_calls_after st _ _ Hc).
    replace (match cap with
             | Chat | Vision => messages request
             | Code => codeGeneration_systemMessage :: messages request
             | Analyze => textAnalysis_systemMessage :: messages request
             | Generate => contentGeneration_systemMessage :: messages request
             end) with (messages (prepared cap request))
      by (destruct cap; reflexivity).
    apply Forall_app. split.
    + destruct Hsdk as [[-> _] | ->]; repeat constructor.
    + apply Forall_fetches_messages.
Qed.

(** X9: in the secondary path a failure of any kind before the last
    candidate (a rejected call, an error status, a body that does not
    parse, holds no choice or holds a choice without a message) does not
    end the dispatch: when the first
    [i+1] candidates all fail and a further candidate exists, the call
    number [i+1] is the direct call for that candidate. *)
Theorem failure_before_last_advances env gw request st i :
  S i < length (modelsToTry request) ->
  (forall j, j <= i -> well_formed (reply env gw request st j) = false) ->
  nth_error (new_calls st (snd (chatCompletionFallback env gw request st)))
    (S i)
  = Some (Fetch (fetchInit env request
                   (nth (S i) (modelsToTry request) TIER_MODELS_free))).
Proof.
  intros Hi Hfail.
  assert (Hk : exists k,
             S i < k /\ k <= length (modelsToTry request)
             /\ snd (chatCompletionFallback env gw request st)
                = after_fetches env request st
                    (firstn k (modelsToTry request))).
  { unfold chatCompletionFallback.
    destruct (candidateLoop_run env gw request (modelsToTry request) 0
                (length (modelsToTry request)) st eq_refl)
      as [[Hnil _] | [Hsucc | Hall]].
    - rewrite Hnil in Hi. cbn in Hi. lia.
    - destruct Hsucc as (k & r & data & choice & cs & msg & Hk & _ & Hf & Hok
                         & Hj & Hc & Hm & Hrun).
      exists (S k). rewrite Hrun. split; [| split; [lia | reflexivity]].
      destruct (Nat.le_gt_cases k i) as [Hle | Hgt]; [| lia].
      specialize (Hfail k Hle). unfold reply in Hfail.
      rewrite (well_formed_intro _ _ _ _ _ _ Hf Hok Hj Hc Hm) in Hfail.
      discriminate.
    - destruct Hall as (_ & _ & e & _ & Hrun).
      exists (length (modelsToTry request)). rewrite Hrun, firstn_all.
      split; [lia | split; [lia | reflexivity]]. }
  destruct Hk as (k & Hlt & Hle & Hst). rewrite Hst.
  rewrite (new_calls_after st
             (after_fetches env request st (firstn k (modelsToTry request)))
             _ eq_refl).
  rewrite nth_error_fetches by (rewrite length_firstn; lia).
  now rewrite nth_firstn.
Qed.

Lemma failure_before_last_advances_witness :
  nth_error
    (new_calls Sample.st0
       (snd (chatCompletionFallback Sample.env Fixture.gw_first_broken
               (Sample.request "free" None) Sample.st0))) 1
  = Some (Fetch (fetchInit Sample.env (Sample.request "free" None)
                   (ModelId "google/gemini-2.0-flash-exp:free"))).
Proof.
  refine (failure_before_last_advances Sample.env Fixture.gw_first_broken
            (Sample.request "free" None) Sample.st0 0 _ _).
  - cbn. lia.
  - intros j Hj. assert (j = 0) as -> by lia. reflexivity.
Defined.

(** ** The route handlers *)

Lemma chatCompletion_throws_prefixed env gw request st e st' :
  chatCompletion env gw request st = (Throw e, st') ->
  String.prefix "AI request failed: " (message e) = true.
Proof.
  unfold chatCompletion, try_catch.
  destruct (chatCompletion_try env gw request (getModelForTier (tier request))
              st) as [[r | e0] st1]; [discriminate |].
  apply chatCompletionFallback_throws_prefixed.
Qed.

Lemma chatCompletion_res env gw request st :
  res (snd (chatCompletion env gw request st)) = res st.
Proof.
  destruct (chatCompletion_try_calls env gw request st)
    as (sdk & _ & _ & Hres).
  unfold chatCompletion, try_catch.
  destruct (chatCompletion_try env gw request (getModelForTier (tier request))
              st) as [[r | e0] st1]; cbn [snd] in *; [exact Hres |].
  destruct (chatCompletionFallback_calls env gw request st1) as (k & _ & Hst).
  rewrite Hst. exact Hres.
Qed.

Lemma multimodalAnalysis_res env gw request st :
  res (snd (multimodalAnalysis env gw request st)) = res st.
Proof.
  unfold multimodalAnalysis, try_catch, multimodalAnalysis_try, bind, throw.
  pose proof (getClient_calls env st) as [_ Hres].
  destruct (getClient env st) as [[c | e] st1]; cbn [snd] in Hres;
    [| exact Hres].
  unfold client_chat_send.
  destruct (chat_send gw _ _) as [e | response]; cbn [snd res];
    [exact Hres |].
  destruct (sdk_choices response); exact Hres.
Qed.

(** The vision handler calls [res.json] once and nothing is sent before
    that call, so none of its calls on the response can throw. *)
Lemma vision_handler_sends_once env gw body st :
  exists ops payload,
    new_res st (snd (vision_handler env gw body st)) = (ops ++ [Json payload])%list
    /\ headersSent ops = false.
Proof.
  unfold vision_handler, try_catch.
  destruct (negb (Js.truthy_str (vision_prompt body))).
  { exists [Status 400], (ErrorJson "Prompt is required" None).
    split; [| reflexivity]. apply new_res_after. unfold bind, res_op. cbn.
    now rewrite <- app_assoc. }
  destruct (negb (Js.truthy_str (vision_imageUrl body))
            && negb (Js.truthy_str (vision_imageBase64 body))).
  { exists [Status 400],
      (ErrorJson "Image URL or base64 data is required" None).
    split; [| reflexivity]. apply new_res_after. unfold bind, res_op. cbn.
    now rewrite <- app_assoc. }
  destruct (negb (Js.truthy_str (vision_tier body))).
  { exists [Status 400], (ErrorJson "Tier is required" None).
    split; [| reflexivity]. apply new_res_after. unfold bind, res_op. cbn.
    now rewrite <- app_assoc. }
  unfold bind.
  pose proof (multimodalAnalysis_res env gw
                (mkAIRequest (vision_messages body)
                   (Js.str_value (vision_tier body)) None None) st) as Hres.
  destruct (multimodalAnalysis env gw _ st) as [[r | e] st1];
    cbn [snd] in Hres.
  - exists [], (VisionJson r (Js.str_value (vision_tier body)) "image").
    split; [| reflexivity]. apply new_res_after. cbn. now rewrite Hres.
  - exists [Status 500],
      (ErrorJson "Vision analysis failed" (Some (message e))).
    split; [| reflexivity]. apply new_res_after. unfold res_op. cbn.
    now rewrite Hres, <- app_assoc.
Qed.

Section ChatPlainRun.
Variable env : Env.
Variable gw : Gateway.

(** How a chat request that does not stream ends. *)
Lemma chat_handler_plain_run body msgs st :
  chat_messages body = Some msgs ->
  chat_stream body <> Some true ->
  chat_handler env gw body st
  = match
      chatCompletion env gw
        (mkAIRequest msgs (chat_tier_or_free body) None None) st
    with
    | (Normal r, st1) =>
        (Normal tt, after_res st1 [Json (ChatJson r (chat_tier_or_free body))])
    | (Throw e, st1) =>
        (Normal tt,
         after_res st1
           [Status 500;
            Json (ErrorJson "Chat completion failed" (Some (message e)))])
    end.
Proof.
  intros Hm Hs.
  assert (Hstream : match chat_stream body with
                    | Some b => b
                    | None => false
                    end = false).
  { destruct (chat_stream body) as [[|] |]; congruence. }
  unfold chat_handler, try_catch. rewrite Hm, Hstream.
  fold (chat_tier_or_free body). unfold bind at 1.
  pose proof (chatCompletion_res env gw
                (mkAIRequest msgs (chat_tier_or_free body) None None) st)
    as Hres.
  destruct (chatCompletion env gw
              (mkAIRequest msgs (chat_tier_or_free body) None None) st)
    as [[r | e] st1]; cbn [snd] in Hres.
  - rewrite (res_set_run st [] st1) by (now rewrite app_nil_r).
    reflexivity.
  - unfold bind, res_op.
    rewrite (res_set_run st [Status 500]) by (cbn [res]; now rewrite Hres).
    cbn [headersSent existsb orb]. unfold after_res. cbn [res client calls].
    now rewrite <- app_assoc.
Qed.

End ChatPlainRun.

Lemma chat_handler_no_messages env gw body st :
  chat_messages body = None ->
  chat_handler env gw body st
  = (Normal tt,
     after_res st [Status 400; Json (ErrorJson "Invalid messages format" None)]).
Proof.
  intros Hm. unfold chat_handler, try_catch. rewrite Hm.
  unfold bind, res_op.
  rewrite (res_set_run st [Status 400]) by reflexivity.
  cbn [headersSent existsb orb]. unfold after_res. cbn [res client calls].
  now rewrite <- app_assoc.
Qed.

(** X10: the chat handler fails exactly when a stream that has delivered
    a content frame faults.  The [catch] block then calls
    [res.status(500).json(...)] on a response whose headers [res.write]
    has sent, [res.json] throws [ERR_HTTP_HEADERS_SENT], and the handler
    ends with that error; the response holds the headers, the content
    frames and the two calls of the [catch] block, without the sentinel
    frame and without [res.end()].  On every other request the handler
    completes. *)
Theorem chat_handler_fails_after_a_frame env gw body st e :
  fst (chat_handler env gw body st) = Throw e
  <->
  e = ERR_HTTP_HEADERS_SENT
  /\ exists msgs s e0,
      chat_messages body = Some msgs
      /\ chat_stream body = Some true
      /\ fst (streamChatCompletion env gw
                (mkAIRequest msgs (chat_tier_or_free body) (Some true) None)
                (after_res st sse_headers))
         = Normal s
      /\ ending s = Faults e0
      /\ delta_frames (chunks s) <> []
      /\ new_res st (snd (chat_handler env gw body st))
         = (sse_headers ++ map Write (delta_frames (chunks s))
            ++ [Status 500;
                Json (ErrorJson "Chat completion failed"
                        (Some (message e0)))])%list.
Proof.
  split.
  - destruct (chat_messages body) as [msgs |] eqn:Hm.
    2:{ rewrite (chat_handler_no_messages env gw body st Hm). discriminate. }
    destruct (chat_stream body) as [[|] |] eqn:Hs.
    2,3: rewrite (chat_handler_plain_run env gw body msgs st Hm)
           by (rewrite Hs; discriminate);
         destruct (chatCompletion env gw _ st) as [[r | e1] st1];
         discriminate.
    rewrite (chat_handler_stream_run env gw body msgs st Hm Hs).
    pose proof (streamChatCompletion_res env gw
                  (mkAIRequest msgs (chat_tier_or_free body) (Some true) None)
                  (after_res st sse_headers)) as Hres.
    destruct (streamChatCompletion env gw
                (mkAIRequest msgs (chat_tier_or_free body) (Some true) None)
                (after_res st sse_headers)) as [[s | e1] st1] eqn:Hopen;
      cbn [fst snd after_res res] in Hres |- *; [| discriminate].
    destruct (ending s) as [| e0] eqn:Hend; [discriminate |].
    destruct (delta_frames (chunks s)) as [| f fs] eqn:Hfr;
      cbn [length Nat.eqb fst snd]; [intros [=] |].
    intros [= <-]. split; [reflexivity |].
    exists msgs, s, e0.
    split; [reflexivity |]. split; [reflexivity |].
    split; [now rewrite Hopen |]. split; [exact Hend |]. split.
    + rewrite Hfr. discriminate.
    + apply new_res_after. cbn [after_res res].
      rewrite Hres, Hfr, <- !app_assoc. reflexivity.
  - intros (-> & msgs & s & e0 & Hm & Hs & Hopen & Hend & Hfr & _).
    rewrite (chat_handler_stream_run env gw body msgs st Hm Hs).
    destruct (streamChatCompletion env gw
                (mkAIRequest msgs (chat_tier_or_free body) (Some true) None)
                (after_res st sse_headers)) as [[s1 | e1] st1];
      cbn [fst] in Hopen; [| discriminate].
    injection Hopen as ->. rewrite Hend.
    destruct (delta_frames (chunks s)); [contradiction | reflexivity].
Qed.

Lemma chat_handler_fails_after_a_frame_witness :
  fst (chat_handler Sample.env
         (Sample.gw_up
            (mkChunkStream [Sample.chunk (Some "Hel")]
               (Faults (mkError "aborted"))))
         Sample.stream_body Sample.st0)
  = Throw ERR_HTTP_HEADERS_SENT
  /\ fst (chat_handler Sample.env
            (Sample.gw_up
               (mkChunkStream [Sample.chunk None]
                  (Faults (mkError "aborted"))))
            Sample.stream_body Sample.st0)
     = Normal tt.
Proof.
  split; [| reflexivity].
  apply (proj2 (chat_handler_fails_after_a_frame Sample.env
                  (Sample.gw_up
                     (mkChunkStream [Sample.chunk (Some "Hel")]
                        (Faults (mkError "aborted"))))
                  Sample.stream_body Sample.st0 ERR_HTTP_HEADERS_SENT)).
  split; [reflexivity |].
  exists [Sample.user "hello"],
    (mkChunkStream [Sample.chunk (Some "Hel")] (Faults (mkError "aborted"))),
    (mkError "aborted").
  repeat split. discriminate.
Defined.

(** X11: a chat request without a message list is answered 400 with
    [Invalid messages format] and nothing else happens: no header is
    set and no remote call is made, also when streaming was asked for. *)
Theorem chat_requires_messages env gw body st :
  chat_messages body = None ->
  chat_handler env gw body st
  = (Normal tt,
     after_res st [Status 400; Json (ErrorJson "Invalid messages format" None)]).
Proof.
  intros Hm. unfold chat_handler, try_catch. rewrite Hm.
  unfold bind, res_op.
  rewrite (res_set_run st [Status 400]) by reflexivity.
  cbn [headersSent existsb orb]. unfold after_res. cbn [res client calls].
  now rewrite <- app_assoc.
Qed.

Lemma chat_requires_messages_witness :
  chat_handler Sample.env Sample.gw_all_down (mkChatBody None None (Some true))
    Sample.st0
  = (Normal tt,
     mkState None []
       [Status 400; Json (ErrorJson "Invalid messages format" None)]).
Proof.
  exact (chat_requires_messages Sample.env Sample.gw_all_down
           (mkChatBody None None (Some true)) Sample.st0 eq_refl).
Defined.

(** X12: a non-streaming chat request with a message list writes exactly
    one reply: the dispatch result with the tier (defaulting to [free])
    when the dispatch returns, and status 500 with the error
    [Chat completion failed] and the dispatch error's message, which
    starts with [AI request failed: ], when it throws. *)
Theorem chat_reply_shape env gw body msgs st :
  chat_messages body = Some msgs ->
  chat_stream body <> Some true ->
  (exists r,
      fst (chatCompletion env gw
             (mkAIRequest msgs (chat_tier_or_free body) None None) st)
      = Normal r
      /\ new_res st (snd (chat_handler env gw body st))
         = [Json (ChatJson r (chat_tier_or_free body))])
  \/ (exists e,
         fst (chatCompletion env gw
                (mkAIRequest msgs (chat_tier_or_free body) None None) st)
         = Throw e
         /\ String.prefix "AI request failed: " (message e) = true
         /\ new_res st (snd (chat_handler env gw body st))
            = [Status 500;
               Json (ErrorJson "Chat completion failed" (Some (message e)))]).
Proof.
  intros Hm Hs.
  rewrite (chat_handler_plain_run env gw body msgs st Hm Hs).
  pose proof (chatCompletion_res env gw
                (mkAIRequest msgs (chat_tier_or_free body) None None) st)
    as Hres.
  destruct (chatCompletion env gw
              (mkAIRequest msgs (chat_tier_or_free body) None None) st)
    as [[r | e] st1] eqn:Hrun; cbn [snd fst] in *.
  - left. exists r. split; [reflexivity |].
    apply new_res_after. cbn. now rewrite Hres.
  - right. exists e. split; [reflexivity |]. split.
    + exact (chatCompletion_throws_prefixed _ _ _ _ _ _ Hrun).
    + apply new_res_after. cbn. now rewrite Hres.
Qed.

Lemma chat_reply_shape_witness :
  new_res Sample.st0
    (snd (chat_handler Sample.env Sample.gw_all_down
            (mkChatBody (Some [Sample.user "hello"]) None None) Sample.st0))
  = [Status 500;
     Json (ErrorJson "Chat completion failed"
             (Some "AI request failed: OpenRouter API error (503): {}"))].
Proof.
  destruct (chat_reply_shape Sample.env Sample.gw_all_down
              (mkChatBody (Some [Sample.user "hello"]) None None)
              [Sample.user "hello"] Sample.st0 eq_refl)
    as [(r & Hrun & _) | (e & Hrun & _ & Hres)].
  - discriminate.
  - discriminate Hrun.
  - cbn in Hrun. injection Hrun as <-. exact Hres.
Defined.

(** X13: the vision handler answers 400 exactly when a required field is
    missing (the prompt, both image fields, or the tier); it then makes
    no remote call and builds no client, and a missing prompt is
    reported before anything else. *)
Theorem vision_rejects_exactly_incomplete_bodies env gw body st :
  ((exists error,
       new_res st (snd (vision_handler env gw body st))
       = [Status 400; Json (ErrorJson error None)])
   <-> vision_incomplete body = true)
  /\ (vision_incomplete body = true ->
      calls (snd (vision_handler env gw body st)) = calls st
      /\ client (snd (vision_handler env gw body st)) = client st)
  /\ (Js.truthy_str (vision_prompt body) = false ->
      new_res st (snd (vision_handler env gw body st))
      = [Status 400; Json (ErrorJson "Prompt is required" None)]).
Proof.
  unfold vision_incomplete, vision_handler, try_catch.
  destruct (Js.truthy_str (vision_prompt body)) eqn:Hp; cbn [negb orb].
  2:{ unfold bind, res_op. cbn [snd calls client res].
      assert (Hres : new_res st
                       (mkState (client st) (calls st)
                          ((res st ++ [Status 400])
                           ++ [Json (ErrorJson "Prompt is required" None)]))
                     = [Status 400; Json (ErrorJson "Prompt is required" None)]).
      { apply new_res_after. cbn. now rewrite <- app_assoc. }
      rewrite Hres.
      split; [split; [reflexivity | intros _; eexists; reflexivity] |].
      split; [intros _; split; reflexivity | reflexivity]. }
  destruct (negb (Js.truthy_str (vision_imageUrl body))
            && negb (Js.truthy_str (vision_imageBase64 body))) eqn:Hi;
    cbn [orb].
  { unfold bind, res_op. cbn [snd calls client res].
    split; [split; [reflexivity |] |].
    - intros _. eexists. apply new_res_after. cbn.
      now rewrite <- app_assoc.
    - split; [intros _; split; reflexivity | discriminate]. }
  destruct (Js.truthy_str (vision_tier body)) eqn:Ht; cbn [negb].
  2:{ unfold bind, res_op. cbn [snd calls client res].
      split; [split; [reflexivity |] |].
      - intros _. eexists. apply new_res_after. cbn.
        now rewrite <- app_assoc.
      - split; [intros _; split; reflexivity | discriminate]. }
  split; [| split; discriminate].
  split; [| discriminate].
  intros [error Herr]. exfalso. revert Herr.
  unfold bind.
  pose proof (multimodalAnalysis_res env gw
                (mkAIRequest (vision_messages body)
                   (Js.str_value (vision_tier body)) None None) st) as Hres.
  destruct (multimodalAnalysis env gw _ st) as [[r | e] st1];
    cbn [snd] in Hres; unfold res_op; cbn [snd res].
  - rewrite (new_res_after st _
               [Json (VisionJson r (Js.str_value (vision_tier body))
                        "image")]);
      [discriminate | cbn; now rewrite Hres].
  - rewrite (new_res_after st _
               [Status 500; Json (ErrorJson "Vision analysis failed"
                                    (Some (message e)))]);
      [discriminate | cbn; now rewrite Hres, <- app_assoc].
Qed.

Lemma vision_rejects_exactly_incomplete_bodies_witness :
  vision_incomplete
    (mkVisionBody None (Some "https://example.com/cat.png") None None) = true
  /\ new_res Sample.st0
       (snd (vision_handler Sample.env Sample.gw_all_down
               (mkVisionBody None (Some "https://example.com/cat.png") None
                  None) Sample.st0))
     = [Status 400; Json (ErrorJson "Prompt is required" None)]
  /\ calls (snd (vision_handler Sample.env Sample.gw_all_down
                   (mkVisionBody None (Some "https://example.com/cat.png")
                      None None) Sample.st0))
     = calls Sample.st0.
Proof.
  split; [reflexivity |]. split.
  - exact (proj2 (proj2 (vision_rejects_exactly_incomplete_bodies
                           Sample.env Sample.gw_all_down
                           (mkVisionBody None
                              (Some "https://example.com/cat.png") None None)
                           Sample.st0)) eq_refl).
  - exact (proj1 (proj1 (proj2 (vision_rejects_exactly_incomplete_bodies
                                  Sample.env Sample.gw_all_down
                                  (mkVisionBody None
                                     (Some "https://example.com/cat.png")
                                     None None)
                                  Sample.st0)) eq_refl)).
Defined.

(** X14: for a complete vision body, an available client and an SDK
    reply with a choice, the handler makes exactly one remote call, to
    the tier's vision model with bound 2000 and a single user message
    holding the prompt and the image reference ([imageUrl] when
    non-empty, otherwise [imageBase64]), and replies with the
    normalized result, the tier and the media type [image]. *)
Theorem vision_success_reply env gw body st response choice cs :
  vision_incomplete body = false ->
  client_available env st = true ->
  chat_send gw (length (calls st))
    (visionParams (mkAIRequest (vision_messages body)
                     (Js.str_value (vision_tier body)) None None))
  = SdkResolves response ->
  sdk_choices response = choice :: cs ->
  new_res st (snd (vision_handler env gw body st))
  = [Json (VisionJson
             (sdk_result response choice
                (getModelForTier (Js.str_value (vision_tier body))))
             (Js.str_value (vision_tier body)) "image")]
  /\ new_calls st (snd (vision_handler env gw body st))
     = [SdkSend
          (mkChatSendParams
             (lookup_or visionModels (Js.str_value (vision_tier body))
                (getModelForTier (Js.str_value (vision_tier body))))
             [mkMessage "user"
                (Parts
                   [TextPart (Js.str_value (vision_prompt body));
                    ImageUrlPart
                      (if Js.truthy_str (vision_imageUrl body)
                       then Js.str_value (vision_imageUrl body)
                       else Js.str_value (vision_imageBase64 body))])]
             false (Some 2000%Z))].
Proof.
  unfold vision_incomplete. intros Hcomplete Hav Hsend Hch.
  apply orb_false_iff in Hcomplete. destruct Hcomplete as [Hc Ht].
  apply orb_false_iff in Hc. destruct Hc as [Hp Hi].
  unfold vision_handler, try_catch. rewrite Hp, Hi, Ht. cbn [negb].
  destruct (getClient_available env st Hav) as (c & Hget).
  unfold bind at 1. unfold multimodalAnalysis, try_catch,
    multimodalAnalysis_try, bind. rewrite Hget.
  unfold client_chat_send. cbn [calls client res tier messages maxTokens].
  unfold visionParams in Hsend. cbn [tier messages maxTokens] in Hsend.
  rewrite Hsend, Hch. unfold res_op, ret. cbn [snd calls res client].
  split.
  - now apply new_res_after.
  - apply new_calls_after. cbn [calls]. unfold vision_messages.
    now destruct (Js.truthy_str (vision_imageUrl body)).
Qed.

Lemma vision_success_reply_witness :
  new_calls Sample.st0
    (snd (vision_handler Sample.env
            (Sample.gw_up (mkChunkStream [] Completes))
            (Sample.vision_body None (Some "data:image/png;base64,AAAA"))
            Sample.st0))
  = [SdkSend
       (mkChatSendParams (ModelId "anthropic/claude-3.5-sonnet")
          [mkMessage "user"
             (Parts [TextPart "What is in this picture?";
                     ImageUrlPart "data:image/png;base64,AAAA"])]
          false (Some 2000%Z))].
Proof.
  exact (proj2 (vision_success_reply Sample.env
                  (Sample.gw_up (mkChunkStream [] Completes))
                  (Sample.vision_body None (Some "data:image/png;base64,AAAA"))
                  Sample.st0
                  (mkSdkResponse [mkSdkChoice (mkSdkMessage None)] None None)
                  (mkSdkChoice (mkSdkMessage None)) []
                  eq_refl eq_refl eq_refl eq_refl)).
Defined.

(** ** The code and generate routes *)

Lemma chat_family_calls env gw request st :
  Forall
    (fun c =>
       call_messages c = messages request
       /\ call_max_tokens c = Js.spread_num (maxTokens request))
    (new_calls st (snd (chatCompletion env gw request st))).
Proof.
  destruct (chatCompletion_calls env gw request st)
    as (sdk & k & Hsdk & Hk & Hc).
  rewrite (new_calls_after st _ _ Hc).
  apply Forall_app. split.
  - destruct Hsdk as [[-> _] | ->]; repeat constructor.
  - unfold fetches. apply Forall_map, Forall_forall.
    intros m Hm. cbn. now split.
Qed.

(** X15: the code and generate handlers answer 400 when the prompt or the
    tier is missing, the prompt being reported first, and leave the
    state untouched: no remote call is made. *)
Theorem one_shot_routes_reject_missing_fields env gw st :
  (forall body,
      Js.truthy_str (code_prompt body) = false
      \/ Js.truthy_str (code_tier body) = false ->
      code_handler env gw body st
      = (Normal
           (mkReply 400
              (RouteError
                 (if Js.truthy_str (code_prompt body)
                  then "Tier is required" else "Prompt is required")
                 None)),
         st))
  /\ (forall body,
         Js.truthy_str (generate_prompt body) = false
         \/ Js.truthy_str (generate_tier body) = false ->
         generate_handler env gw body st
         = (Normal
              (mkReply 400
                 (RouteError
                    (if Js.truthy_str (generate_prompt body)
                     then "Tier is required" else "Prompt is required")
                    None)),
            st)).
Proof.
  split; intros body H.
  - unfold code_handler, try_catch.
    destruct (Js.truthy_str (code_prompt body)); cbn [negb];
      [| reflexivity].
    destruct H as [H | H]; [discriminate |]. now rewrite H.
  - unfold generate_handler, try_catch.
    destruct (Js.truthy_str (generate_prompt body)); cbn [negb];
      [| reflexivity].
    destruct H as [H | H]; [discriminate |]. now rewrite H.
Qed.

(** X16: for a code request with prompt and tier, every remote call
    carries the expert-programmer system message followed by one user
    message, [Generate <language> code: <prompt>] or
    [Generate code: <prompt>] without a language, and the bound 4000;
    the reply is either 200 with the tier and the language echo ([auto]
    without a language) or 500 [Code generation failed] with a message
    that starts with [AI request failed: ]. *)
Theorem code_handler_dispatch env gw body st :
  Js.truthy_str (code_prompt body) = true ->
  Js.truthy_str (code_tier body) = true ->
  Forall
    (fun c =>
       call_messages c
       = [codeGeneration_systemMessage;
          mkMessage "user"
            (Text (if Js.truthy_str (code_language body)
                   then "Generate " ++ Js.str_value (code_language body)
                        ++ " code: " ++ Js.str_value (code_prompt body)
                   else "Generate code: "
                        ++ Js.str_value (code_prompt body)))]
       /\ call_max_tokens c = Some 4000%Z)
    (new_calls st (snd (code_handler env gw body st)))
  /\ ((exists r,
          fst (code_handler env gw body st)
          = Normal
              (mkReply 200
                 (RouteJson r (Js.str_value (code_tier body))
                    [("language",
                      if Js.truthy_str (code_language body)
                      then Js.str_value (code_language body)
                      else "auto")])))
      \/ (exists m,
             fst (code_handler env gw body st)
             = Normal
                 (mkReply 500 (RouteError "Code generation failed" (Some m)))
             /\ String.prefix "AI request failed: " m = true)).
Proof.
  intros Hp Ht. unfold code_handler, try_catch. rewrite Hp, Ht. cbn [negb].
  unfold bind, codeGeneration.
  cbn [messages tier stream maxTokens Js.or_num].
  set (request :=
         mkAIRequest
           [codeGeneration_systemMessage;
            mkMessage "user" (Text (code_userMessage body))]
           (Js.str_value (code_tier body)) None (Some 4000%Z)).
  pose proof (chat_family_calls env gw request st) as Hcalls.
  destruct (chatCompletion env gw request st) as [[r | e] st1] eqn:Hrun;
    cbn [fst snd] in *.
  - split.
    + eapply Forall_impl; [| exact Hcalls].
      intros c (Hm & Hb). now split.
    + left. exists r. unfold ret. cbn [fst]. do 4 f_equal.
      destruct (code_language body) as [l |]; cbn; [| reflexivity].
      now destruct (l =? "").
  - split.
    + eapply Forall_impl; [| exact Hcalls].
      intros c (Hm & Hb). now split.
    + right. exists (message e). split; [reflexivity |].
      exact (chatCompletion_throws_prefixed _ _ _ _ _ _ Hrun).
Qed.

Lemma one_shot_routes_reject_missing_fields_witness :
  code_handler Sample.env Sample.gw_all_down
    (mkCodeBody (Some "fibonacci function") (Some "python") None) Sample.st0
  = (Normal (mkReply 400 (RouteError "Tier is required" None)), Sample.st0).
Proof.
  refine (proj1 (one_shot_routes_reject_missing_fields Sample.env
                   Sample.gw_all_down Sample.st0)
            (mkCodeBody (Some "fibonacci function") (Some "python") None) _).
  right. reflexivity.
Defined.

Lemma code_handler_dispatch_witness :
  map call_messages
    (new_calls Sample.st0
       (snd (code_handler Sample.env
               (Sample.gw_up (mkChunkStream [] Completes))
               (mkCodeBody (Some "fibonacci function") (Some "python")
                  (Some "premium")) Sample.st0)))
  = [[codeGeneration_systemMessage;
      mkMessage "user" (Text "Generate python code: fibonacci function")]]
  /\ Forall
       (fun c =>
          call_messages c
          = [codeGeneration_systemMessage;
             mkMessage "user"
               (Text "Generate python code: fibonacci function")]
          /\ call_max_tokens c = Some 4000%Z)
       (new_calls Sample.st0
          (snd (code_handler Sample.env
                  (Sample.gw_up (mkChunkStream [] Completes))
                  (mkCodeBody (Some "fibonacci function") (Some "python")
                     (Some "premium")) Sample.st0))).
Proof.
  split; [reflexivity |].
  exact (proj1 (code_handler_dispatch Sample.env
                  (Sample.gw_up (mkChunkStream [] Completes))
                  (mkCodeBody (Some "fibonacci function") (Some "python")
                     (Some "premium")) Sample.st0 eq_refl eq_refl)).
Defined.

Lemma string_append_empty (s : string) : s ++ "" = s.
Proof. induction s as [| c s IH]; cbn; [reflexivity | now rewrite IH]. Qed.

(** X17: for a generate request with prompt and tier, every remote call
    carries the creative-writer system message followed by one user
    message, the prompt (as [Generate <contentType>: <prompt>] when a
    content type is given) with a [Tone: <tone>] paragraph appended when
    a tone is given, and the bound 3000; the reply is either 200 with
    the echoes defaulting to [general] and [neutral] or 500
    [Content generation failed] with a message that starts with
    [AI request failed: ]. *)
Theorem generate_handler_dispatch env gw body st :
  Js.truthy_str (generate_prompt body) = true ->
  Js.truthy_str (generate_tier body) = true ->
  Forall
    (fun c =>
       call_messages c
       = [contentGeneration_systemMessage;
          mkMessage "user"
            (Text ((if Js.truthy_str (generate_contentType body)
                    then "Generate "
                         ++ Js.str_value (generate_contentType body)
                         ++ ": " ++ Js.str_value (generate_prompt body)
                    else Js.str_value (generate_prompt body))
                   ++ (if Js.truthy_str (generate_tone body)
                       then JSON.newline ++ JSON.newline ++ "Tone: "
                            ++ Js.str_value (generate_tone body)
                       else "")))]
       /\ call_max_tokens c = Some 3000%Z)
    (new_calls st (snd (generate_handler env gw body st)))
  /\ ((exists r,
          fst (generate_handler env gw body st)
          = Normal
              (mkReply 200
                 (RouteJson r (Js.str_value (generate_tier body))
                    [("contentType",
                      if Js.truthy_str (generate_contentType body)
                      then Js.str_value (generate_contentType body)
                      else "general");
                     ("tone",
                      if Js.truthy_str (generate_tone body)
                      then Js.str_value (generate_tone body)
                      else "neutral")])))
      \/ (exists m,
             fst (generate_handler env gw body st)
             = Normal
                 (mkReply 500
                    (RouteError "Content generation failed" (Some m)))
             /\ String.prefix "AI request failed: " m = true)).
Proof.
  intros Hp Ht. unfold generate_handler, try_catch. rewrite Hp, Ht.
  cbn [negb]. unfold bind, contentGeneration.
  cbn [messages tier stream maxTokens Js.or_num].
  set (request :=
         mkAIRequest
           [contentGeneration_systemMessage;
            mkMessage "user" (Text (generate_userMessage body))]
           (Js.str_value (generate_tier body)) None (Some 3000%Z)).
  assert (Hmsg : generate_userMessage body
                 = (if Js.truthy_str (generate_contentType body)
                    then "Generate "
                         ++ Js.str_value (generate_contentType body)
                         ++ ": " ++ Js.str_value (generate_prompt body)
                    else Js.str_value (generate_prompt body))
                   ++ (if Js.truthy_str (generate_tone body)
                       then JSON.newline ++ JSON.newline ++ "Tone: "
                            ++ Js.str_value (generate_tone body)
                       else "")).
  { unfold generate_userMessage.
    destruct (Js.truthy_str (generate_tone body)); [reflexivity |].
    now rewrite string_append_empty. }
  assert (Hor : forall v d,
             Js.or_str v d = if Js.truthy_str v then Js.str_value v else d).
  { intros [s |] d; cbn; [| reflexivity]. now destruct (s =? ""). }
  pose proof (chat_family_calls env gw request st) as Hcalls.
  destruct (chatCompletion env gw request st) as [[r | e] st1] eqn:Hrun;
    cbn [fst snd] in *.
  - split.
    + eapply Forall_impl; [| exact Hcalls].
      intros c (Hm & Hb). split; [| exact Hb].
      rewrite Hm. cbn [messages request]. now rewrite Hmsg.
    + left. exists r. unfold ret. cbn [fst]. now rewrite !Hor.
  - split.
    + eapply Forall_impl; [| exact Hcalls].
      intros c (Hm & Hb). split; [| exact Hb].
      rewrite Hm. cbn [messages request]. now rewrite Hmsg.
    + right. exists (message e). split; [reflexivity |].
      exact (chatCompletion_throws_prefixed _ _ _ _ _ _ Hrun).
Qed.

Lemma generate_handler_dispatch_witness :
  map call_messages
    (new_calls Sample.st0
       (snd (generate_handler Sample.env
               (Sample.gw_up (mkChunkStream [] Completes))
               (mkGenerateBody (Some "AI in healthcare") (Some "blog-post")
                  None (Some "ultra-premium")) Sample.st0)))
  = [[contentGeneration_systemMessage;
      mkMessage "user" (Text "Generate blog-post: AI in healthcare")]]
  /\ exists r,
      fst (generate_handler Sample.env
             (Sample.gw_up (mkChunkStream [] Completes))
             (mkGenerateBody (Some "AI in healthcare") (Some "blog-post")
                None (Some "ultra-premium")) Sample.st0)
      = Normal
          (mkReply 200
             (RouteJson r "ultra-premium"
                [("contentType", "blog-post"); ("tone", "neutral")])).
Proof.
  split; [reflexivity |].
  destruct (proj2 (generate_handler_dispatch Sample.env
                     (Sample.gw_up (mkChunkStream [] Completes))
                     (mkGenerateBody (Some "AI in healthcare")
                        (Some "blog-post") None (Some "ultra-premium"))
                     Sample.st0 eq_refl eq_refl))
    as [(r & Hr) | (m & Hm & _)].
  - exists r. exact Hr.
  - discriminate Hm.
Defined.

(** ** The prompt of the analyze route *)

(** X18: whenever the analyze route's prompt is a text, it is a one-line
    instruction, a blank line and then the caller's text, verbatim. *)
Theorem analyze_prompt_keeps_text text task s :
  analyze_userMessage text task = PromptText s ->
  exists instruction,
    s = instruction ++ JSON.newline ++ JSON.newline ++ text
    /\ JsString.printable instruction = true.
Proof.
  unfold analyze_userMessage, taskPrompts. cbn [Js.assoc].
  set (key := match task with Some t => t | None => "undefined" end).
  destruct ("summarize" =? key).
  { cbn. intros H. injection H as <-.
    exists "Summarize the following text concisely:". split; reflexivity. }
  destruct ("analyze" =? key).
  { cbn. intros H. injection H as <-.
    exists "Analyze the following text and provide key insights:".
    split; reflexivity. }
  destruct ("sentiment" =? key).
  { cbn. intros H. injection H as <-.
    exists "Analyze the sentiment of the following text:".
    split; reflexivity. }
  destruct ("keywords" =? key).
  { cbn. intros H. injection H as <-.
    exists "Extract key keywords and topics from the following text:".
    split; reflexivity. }
  destruct (Js.mem key Js.Object_prototype_keys); [discriminate |].
  intros H. injection H as <-.
  exists "Analyze this text:". split; reflexivity.
Qed.

Lemma analyze_prompt_keeps_text_witness :
  analyze_userMessage "I love it" (Some "sentiment")
  = PromptText ("Analyze the sentiment of the following text:"
                ++ JSON.newline ++ JSON.newline ++ "I love it")
  /\ exists instruction,
      "Analyze the sentiment of the following text:"
      ++ JSON.newline ++ JSON.newline ++ "I love it"
      = instruction ++ JSON.newline ++ JSON.newline ++ "I love it"
      /\ JsString.printable instruction = true.
Proof.
  split; [reflexivity |].
  exact (analyze_prompt_keeps_text "I love it" (Some "sentiment") _ eq_refl).
Defined.

(** X19: a task outside the four of the table selects the generic
    instruction, exactly as a missing task does, unless it names a
    member inherited from [Object.prototype]: then the lookup finds that
    member and the prompt is no text. *)
Theorem analyze_prompt_unknown_task text task :
  Js.mem task ["summarize"; "analyze"; "sentiment"; "keywords"] = false ->
  (Js.mem task Js.Object_prototype_keys = false ->
   analyze_userMessage text (Some task)
   = PromptText ("Analyze this text:" ++ JSON.newline ++ JSON.newline
                 ++ text)
   /\ analyze_userMessage text (Some task) = analyze_userMessage text None)
  /\ (Js.mem task Js.Object_prototype_keys = true ->
      analyze_userMessage text (Some task) = PromptInherited task).
Proof.
  unfold analyze_userMessage, taskPrompts. cbn [Js.assoc Js.mem].
  intros Hknown.
  destruct ("summarize" =? task); [discriminate |].
  destruct ("analyze" =? task); [discriminate |].
  destruct ("sentiment" =? task); [discriminate |].
  destruct ("keywords" =? task); [discriminate |].
  split; intros ->; [split |]; reflexivity.
Qed.

Lemma analyze_prompt_unknown_task_witness :
  analyze_userMessage "some text" (Some "translate")
  = PromptText ("Analyze this text:" ++ JSON.newline ++ JSON.newline
                ++ "some text")
  /\ analyze_userMessage "some text" (Some "valueOf")
     = PromptInherited "valueOf".
Proof.
  split.
  - exact (proj1 (proj1 (analyze_prompt_unknown_task "some text" "translate"
                           eq_refl) eq_refl)).
  - exact (proj2 (analyze_prompt_unknown_task "some text" "valueOf" eq_refl)
             eq_refl).
Defined.

(** ** Event-stream frames *)

Lemma printable_append a b :
  JsString.printable (a ++ b)
  = JsString.printable a && JsString.printable b.
Proof.
  induction a as [| c a IH]; cbn; [reflexivity |].
  now rewrite IH, andb_assoc.
Qed.

Lemma escape_char_printable c : JsString.printable (JSON.escape_char c) = true.
Proof.
  destruct c as [[|] [|] [|] [|] [|] [|] [|] [|]]; reflexivity.
Qed.

Lemma escape_printable s : JsString.printable (JSON.escape s) = true.
Proof.
  induction s as [| c s IH]; cbn [JSON.escape]; [reflexivity |].
  now rewrite printable_append, escape_char_printable, IH.
Qed.

(** X20: a content-delta frame is one event of the stream: [data: ], a
    payload without any control character (so without a line break),
    and the blank line that ends the event. *)
Theorem delta_frame_is_one_event d :
  exists payload,
    delta_frame d = "data: " ++ payload ++ JSON.newline ++ JSON.newline
    /\ JsString.printable payload = true.
Proof.
  exists (JSON.stringify_content d). split.
  - unfold delta_frame. cbn. reflexivity.
  - unfold JSON.stringify_content, JSON.stringify_string.
    rewrite !printable_append, escape_printable. reflexivity.
Qed.

(** ** The client's request function *)

Section ClientProperties.

Variables B P : Type.
Variable VITE_API_URL : option string.
Variable fetch : Client.Request B -> Client.Settled (Client.Response P).
Variable makeRequest :
  Client.Request B -> string -> Client.Settled (Client.Response P).

Lemma zero_price_not_positive price :
  QArith_base.Qeq_bool price (QArith_base.Qmake 0 1) = true ->
  Client.positive price = false.
Proof.
  intros H. apply QArith_base.Qeq_bool_iff in H.
  unfold Client.positive.
  replace (QArith_base.Qle_bool price (QArith_base.Qmake 0 1)) with true;
    [reflexivity |].
  symmetry. apply QArith_base.Qle_bool_iff.
  unfold QArith_base.Qeq in H. unfold QArith_base.Qle. rewrite H.
  apply Z.le_refl.
Qed.

Lemma positive_price_not_zero price :
  Client.positive price = true ->
  QArith_base.Qeq_bool price (QArith_base.Qmake 0 1) = false.
Proof.
  intros Hp.
  destruct (QArith_base.Qeq_bool price (QArith_base.Qmake 0 1)) eqn:Hz;
    [| reflexivity].
  rewrite (zero_price_not_positive price Hz) in Hp. discriminate.
Qed.

(** X21: for a priced feature, a wallet that is not connected or has no
    public key makes [makeAIRequest] throw before anything is put on the
    network. *)
Theorem paid_request_needs_wallet wallet endpoint body tier price :
  Client.positive price = true ->
  Client.connected wallet = false \/ Client.publicKey wallet = None ->
  exists e,
    Client.makeAIRequest B P VITE_API_URL fetch makeRequest wallet endpoint body tier price
    = (Client.Rejected (Client.ErrorObject e), [])
    /\ (message e = "Please connect your wallet to use paid features"
        \/ message e
           = "Wallet connected but public key not available. Please try reconnecting your wallet.").
Proof.
  intros Hp Hw. unfold Client.makeAIRequest. rewrite Hp. cbn [andb].
  destruct (Client.connected wallet); cbn [negb].
  - destruct Hw as [Hw | Hw]; [discriminate |]. rewrite Hw. cbn [negb].
    eexists. split; [reflexivity | now right].
  - eexists. split; [reflexivity | now left].
Qed.

(** X22: a request with price 0 is sent with one plain [fetch] to the API
    URL followed by the endpoint, never through the payment client, and
    its outcome does not depend on the wallet. *)
Theorem free_request_uses_plain_fetch wallet endpoint body tier price :
  QArith_base.Qeq_bool price (QArith_base.Qmake 0 1) = true ->
  snd (Client.makeAIRequest B P VITE_API_URL fetch makeRequest wallet endpoint body tier price)
  = [Client.PlainFetch
       (Client.mkRequest (Client.API_URL VITE_API_URL ++ endpoint) body tier)]
  /\ forall wallet',
      Client.makeAIRequest B P VITE_API_URL fetch makeRequest wallet endpoint body tier price
      = Client.makeAIRequest B P VITE_API_URL fetch makeRequest wallet' endpoint body tier price.
Proof.
  intros Hz. unfold Client.makeAIRequest, Client.makeAIRequest_try.
  rewrite (zero_price_not_positive price Hz), Hz. cbn [andb].
  split; [| reflexivity].
  destruct (fetch _) as [response | e]; [| reflexivity].
  destruct (Client.resp_ok response); cbn [negb]; [| reflexivity].
  destruct (Client.resp_json response); reflexivity.
Qed.

(** X23: a priced request from a connected wallet with a public key makes
    exactly one request, through the payment client and for that payer;
    a 402 reply surfaces as the error that asks to approve the
    transaction. *)
Theorem paid_request_goes_through_payment_client wallet payer endpoint body
  tier price :
  Client.positive price = true ->
  Client.connected wallet = true ->
  Client.publicKey wallet = Some payer ->
  snd (Client.makeAIRequest B P VITE_API_URL fetch makeRequest wallet endpoint body tier price)
  = [Client.PaidRequest
       (Client.mkRequest (Client.API_URL VITE_API_URL ++ endpoint) body tier)
       payer]
  /\ (forall response,
         makeRequest
           (Client.mkRequest (Client.API_URL VITE_API_URL ++ endpoint) body
              tier) payer
         = Client.Resolved response ->
         Client.resp_ok response = false ->
         Client.resp_status response = 402%Z ->
         fst (Client.makeAIRequest B P VITE_API_URL fetch makeRequest wallet endpoint body tier price)
         = Client.Rejected
             (Client.ErrorObject
                (mkError
                   "Payment required. Please approve the transaction in your wallet."))).
Proof.
  intros Hp Hc Hk. unfold Client.makeAIRequest, Client.makeAIRequest_try.
  rewrite Hp, Hc, Hk, (positive_price_not_zero price Hp).
  cbn [andb negb]. split.
  - destruct (makeRequest _ payer) as [response | e]; [| reflexivity].
    destruct (Client.resp_ok response); cbn [negb].
    + destruct (Client.resp_json response); reflexivity.
    + destruct (Client.resp_status response =? 402)%Z; reflexivity.
  - intros response Hr Hok Hs. rewrite Hr, Hok, Hs. reflexivity.
Qed.

(** X24: no [Error] object that [makeAIRequest] throws has a message
    containing [User rejected] or
    [Payment required but no payment details provided]: such errors are
    replaced by the client's own wording.  A thrown value that is no
    [Error] object is not looked at: it is thrown again as it was
    caught. *)
Theorem surfaced_errors_are_rewritten wallet endpoint body tier price :
  (forall e,
      fst (Client.makeAIRequest B P VITE_API_URL fetch makeRequest wallet
             endpoint body tier price)
      = Client.Rejected (Client.ErrorObject e) ->
      JsString.includes "User rejected" (message e) = false
      /\ JsString.includes
           "Payment required but no payment details provided" (message e)
         = false)
  /\ (forall shown,
         fst (Client.makeAIRequest_try B P VITE_API_URL fetch makeRequest
                wallet endpoint body tier price)
         = Client.Rejected (Client.OtherValue shown) ->
         Client.positive price = false
         \/ (Client.connected wallet = true
             /\ Client.publicKey wallet <> None) ->
         fst (Client.makeAIRequest B P VITE_API_URL fetch makeRequest wallet
                endpoint body tier price)
         = Client.Rejected (Client.OtherValue shown)).
Proof.
  split.
  - intros e. unfold Client.makeAIRequest.
    destruct (Client.positive price && negb (Client.connected wallet)).
    { cbn. intros H. injection H as <-. split; reflexivity. }
    destruct (Client.positive price && negb _).
    { cbn. intros H. injection H as <-. split; reflexivity. }
    destruct (Client.makeAIRequest_try _ _ _ _ _ _ _ _ _)
      as [[payload | [e0 | shown]] net]; cbn [fst]; try discriminate.
    unfold Client.makeAIRequest_catch.
    destruct (JsString.includes "User rejected" (message e0)) eqn:Hu.
    { intros H. injection H as <-. split; reflexivity. }
    destruct (JsString.includes
                "Payment required but no payment details provided"
                (message e0)) eqn:Hd.
    { intros H. injection H as <-. split; reflexivity. }
    intros H. injection H as <-. now split.
  - intros shown Htry Hw. unfold Client.makeAIRequest.
    assert (Hpre1 : Client.positive price
                    && negb (Client.connected wallet) = false).
    { destruct Hw as [-> | [-> _]]; [reflexivity | apply andb_false_r]. }
    assert (Hpre2 : Client.positive price
                    && negb (match Client.publicKey wallet with
                             | Some _ => true
                             | None => false
                             end) = false).
    { destruct Hw as [-> | [_ Hk]]; [reflexivity |].
      destruct (Client.publicKey wallet); [apply andb_false_r | contradiction]. }
    rewrite Hpre1, Hpre2.
    destruct (Client.makeAIRequest_try _ _ _ _ _ _ _ _ _)
      as [[payload | t] net]; cbn [fst] in *; [discriminate |].
    injection Htry as ->. reflexivity.
Qed.

End ClientProperties.

Lemma paid_request_needs_wallet_witness :
  Client.positive Fixture.vision_price = true
  /\ exists e,
      Client.makeAIRequest unit string None (Fixture.net_fetch "hi")
        (Fixture.net_refuse 402 "") Fixture.no_wallet "/api/ai/vision" tt
        "enterprise" Fixture.vision_price
      = (Client.Rejected (Client.ErrorObject e), [])
      /\ (message e = "Please connect your wallet to use paid features"
          \/ message e
             = "Wallet connected but public key not available. Please try reconnecting your wallet.").
Proof.
  split; [reflexivity |].
  exact (paid_request_needs_wallet unit string None (Fixture.net_fetch "hi")
           (Fixture.net_refuse 402 "") Fixture.no_wallet "/api/ai/vision" tt
           "enterprise" Fixture.vision_price eq_refl (or_introl eq_refl)).
Defined.

Lemma free_request_uses_plain_fetch_witness :
  Client.makeAIRequest unit string None (Fixture.net_fetch "hi") (Fixture.net_refuse 402 "")
    Fixture.no_wallet "/api/ai/chat" tt "free" Fixture.free_price
  = (Client.Resolved "hi",
     [Client.PlainFetch
        (Client.mkRequest "http://localhost:3001/api/ai/chat" tt "free")])
  /\ Client.makeAIRequest unit string None (Fixture.net_fetch "hi")
       (Fixture.net_refuse 402 "") Fixture.no_wallet "/api/ai/chat" tt "free" Fixture.free_price
     = Client.makeAIRequest unit string None (Fixture.net_fetch "hi")
         (Fixture.net_refuse 402 "") Fixture.phantom "/api/ai/chat" tt "free" Fixture.free_price.
Proof.
  split; [reflexivity |].
  exact (proj2 (free_request_uses_plain_fetch unit string None
                  (Fixture.net_fetch "hi") (Fixture.net_refuse 402 "") Fixture.no_wallet
                  "/api/ai/chat" tt "free" Fixture.free_price eq_refl) Fixture.phantom).
Defined.

Lemma paid_request_goes_through_payment_client_witness :
  Client.makeAIRequest unit string None (Fixture.net_fetch "hi") (Fixture.net_refuse 402 "")
    Fixture.phantom "/api/ai/vision" tt "enterprise" Fixture.vision_price
  = (Client.Rejected
       (Client.ErrorObject
          (mkError
             "Payment required. Please approve the transaction in your wallet.")),
     [Client.PaidRequest
        (Client.mkRequest "http://localhost:3001/api/ai/vision" tt
           "enterprise")
        "7xKXtg2CW87d97TXJSDpbD5jBkheTqA83TZRuJosgAsU"]).
Proof.
  destruct (paid_request_goes_through_payment_client unit string None
              (Fixture.net_fetch "hi") (Fixture.net_refuse 402 "") Fixture.phantom
              "7xKXtg2CW87d97TXJSDpbD5jBkheTqA83TZRuJosgAsU"
              "/api/ai/vision" tt "enterprise" Fixture.vision_price
              eq_refl eq_refl eq_refl) as [Hnet Hthrow].
  rewrite (surjective_pairing
             (Client.makeAIRequest unit string None (Fixture.net_fetch "hi")
                (Fixture.net_refuse 402 "") Fixture.phantom "/api/ai/vision" tt "enterprise"
                Fixture.vision_price)).
  rewrite Hnet, (Hthrow _ eq_refl eq_refl eq_refl). reflexivity.
Defined.

Lemma surfaced_errors_are_rewritten_witness :
  fst (Client.makeAIRequest unit string None (Fixture.net_fetch "hi")
         (Fixture.net_refuse 500 "User rejected the request") Fixture.phantom
         "/api/ai/vision" tt "enterprise" Fixture.vision_price)
  = Client.Rejected
      (Client.ErrorObject
         (mkError
            "Transaction cancelled. Please approve the wallet transaction to continue."))
  /\ JsString.includes "User rejected"
       "Transaction cancelled. Please approve the wallet transaction to continue."
     = false
  /\ fst (Client.makeAIRequest unit string None (Fixture.net_fetch "hi")
            (Fixture.net_reject_with "User rejected the request")
            Fixture.phantom "/api/ai/vision" tt "enterprise"
            Fixture.vision_price)
     = Client.Rejected (Client.OtherValue "User rejected the request").
Proof.
  split; [reflexivity |]. split.
  - exact (proj1 (proj1 (surfaced_errors_are_rewritten unit string None
                           (Fixture.net_fetch "hi")
                           (Fixture.net_refuse 500 "User rejected the request")
                           Fixture.phantom "/api/ai/vision" tt "enterprise"
                           Fixture.vision_price) _ eq_refl)).
  - refine (proj2 (surfaced_errors_are_rewritten unit string None
                     (Fixture.net_fetch "hi")
                     (Fixture.net_reject_with "User rejected the request")
                     Fixture.phantom "/api/ai/vision" tt "enterprise"
                     Fixture.vision_price) _ eq_refl _).
    right. split; [reflexivity | discriminate].
Defined.

(** ** From the client's vision form to the model *)

(** X25: whatever non-empty prompt and image string the vision form
    passes, the body the client builds passes the vision route's
    validation, the assembled message holds that prompt and that image
    string (a data URL travels as [imageBase64], anything else as
    [imageUrl]), and every remote call is the SDK call to the enterprise
    model with that message. *)
Theorem client_vision_request_is_served env gw st prompt image :
  prompt <> "" ->
  image <> "" ->
  vision_incomplete (Client.vision_request_body prompt image) = false
  /\ vision_messages (Client.vision_request_body prompt image)
     = [mkMessage "user" (Parts [TextPart prompt; ImageUrlPart image])]
  /\ Forall
       (fun c =>
          c = SdkSend
                (mkChatSendParams (ModelId "anthropic/claude-3.7-sonnet")
                   [mkMessage "user"
                      (Parts [TextPart prompt; ImageUrlPart image])]
                   false (Some 2000%Z)))
       (new_calls st
          (snd (vision_handler env gw
                  (Client.vision_request_body prompt image) st))).
Proof.
  intros Hp Hi.
  assert (Htp : Js.truthy_str (Some prompt) = true).
  { cbn. now destruct (String.eqb_spec prompt ""). }
  assert (Hti : Js.truthy_str (Some image) = true).
  { cbn. now destruct (String.eqb_spec image ""). }
  assert (Hinc : vision_incomplete (Client.vision_request_body prompt image)
                 = false).
  { unfold vision_incomplete, Client.vision_request_body.
    destruct (JsString.startsWith "data:" image);
      cbn [vision_prompt vision_imageUrl vision_imageBase64 vision_tier];
      rewrite Htp, Hti; reflexivity. }
  assert (Hmsg : vision_messages (Client.vision_request_body prompt image)
                 = [mkMessage "user"
                      (Parts [TextPart prompt; ImageUrlPart image])]).
  { unfold vision_messages, Client.vision_request_body.
    destruct (JsString.startsWith "data:" image);
      cbn [vision_prompt vision_imageUrl vision_imageBase64 vision_tier];
      rewrite ?Hti; reflexivity. }
  split; [exact Hinc |]. split; [exact Hmsg |].
  assert (Htier : vision_tier (Client.vision_request_body prompt image)
                  = Some "enterprise").
  { unfold Client.vision_request_body.
    destruct (JsString.startsWith "data:" image); reflexivity. }
  unfold vision_incomplete in Hinc.
  apply orb_false_iff in Hinc. destruct Hinc as [Hc Ht].
  apply orb_false_iff in Hc. destruct Hc as [Hpp Hii].
  unfold vision_handler, try_catch. rewrite Hpp, Hii, Ht. cbn [negb].
  rewrite Hmsg, Htier. cbn [Js.str_value]. unfold bind.
  set (request :=
         mkAIRequest
           [mkMessage "user" (Parts [TextPart prompt; ImageUrlPart image])]
           "enterprise" None None).
  pose proof (multimodalAnalysis_calls env gw request st) as Hcalls.
  destruct (multimodalAnalysis env gw request st) as [[r | e] st1];
    cbn [snd] in Hcalls; unfold res_op; cbn [snd calls];
    (destruct Hcalls as [Hc | Hc];
     [ rewrite (new_calls_after st _ [ ]);
       [constructor | cbn [calls]; now rewrite app_nil_r]
     | rewrite (new_calls_after st _ [SdkSend (visionParams request)]);
       [repeat constructor | exact Hc] ]).
Qed.

Lemma client_vision_request_is_served_witness :
  vision_messages
    (Client.vision_request_body "What is this?" "data:image/png;base64,AAAA")
  = [mkMessage "user"
       (Parts [TextPart "What is this?";
               ImageUrlPart "data:image/png;base64,AAAA"])]
  /\ vision_imageUrl
       (Client.vision_request_body "What is this?"
          "data:image/png;base64,AAAA") = None.
Proof.
  split; [| reflexivity].
  refine (proj1 (proj2 (client_vision_request_is_served Sample.env
                          Sample.gw_all_down Sample.st0 "What is this?"
                          "data:image/png;base64,AAAA" _ _)));
    discriminate.
Defined.
